(** * pcdswidgets: symbol icons and valve symbols

    A shallow embedding of [pcdswidgets/icons/base.py] (the painting widget
    [BaseSymbolIcon]) and of [pcdswidgets/symbols/valves.py] (the composite
    widgets [PneumaticValve] and [FastShutter]), with the properties the
    specification states about them.

    Widgets are records of their Python attributes; a method is a function
    from the widget before the call to the widget after it.  Calls into Qt
    are modelled by what they store or record: a pen is the record of its
    attributes, a painter is the list of the calls it received, a repaint
    request is a counter. *)

From Stdlib Require Import ZArith List Bool String Lia.
From Stdlib Require Import Floats.SpecFloat.
Import ListNotations.

Local Open Scope Z_scope.

(** ** Python floats

    A Python [float] is an IEEE 754 binary64 number: [spec_float] of the
    standard library at precision 53 and maximal exponent 1024, with its
    signed zeros, infinities and NaN.  The comparisons [<], [==] and [!=]
    of Python are [SFltb], [SFeqb] and the negation of [SFeqb]. *)

Module PyFloat.

Definition float := spec_float.

Definition prec : Z := 53.
Definition emax : Z := 1024.

Definition valid (x : float) : bool := valid_binary prec emax x.

(** [float(n)] for a Python int [n], rounded to nearest even; the ints
    converted here are the C ints of a [QRect], all of them exact. *)
Definition of_int (n : Z) : float := binary_normalize prec emax n 0 false.

Definition zero : float := S754_zero false.
Definition neg_zero : float := S754_zero true.
Definition one : float := S754_finite false 4503599627370496 (-52).
Definition two : float := S754_finite false 4503599627370496 (-51).
Definition nan : float := S754_nan.
Definition inf : float := S754_infinity false.

Definition ltb (x y : float) : bool := SFltb x y.
Definition leb (x y : float) : bool := SFleb x y.
Definition eqb (x y : float) : bool := SFeqb x y.
Definition neqb (x y : float) : bool := negb (SFeqb x y).

Definition div (x y : float) : float := SFdiv prec emax x y.
Definition sub (x y : float) : float := SFsub prec emax x y.

(** [x.is_integer()]: a finite float whose value [m * 2^e] is an integer. *)
Definition is_integer (x : float) : bool :=
  match x with
  | S754_zero _ => true
  | S754_finite _ m e =>
      (0 <=? e) || (Z.land (Zpos m) (Z.ones (- e)) =? 0)
  | S754_infinity _ | S754_nan => false
  end.

(** [int(x)]: truncation toward zero; NaN and the infinities raise
    ([None]). *)
Definition to_int (x : float) : option Z :=
  match x with
  | S754_zero _ => Some 0
  | S754_finite s m e =>
      let a := Z.shiftl (Zpos m) e in
      Some (if s then - a else a)
  | S754_infinity _ | S754_nan => None
  end.

(** The float [x] has exactly the integer value [n]. *)
Definition is_int (x : float) (n : Z) : bool :=
  is_integer x &&
  match to_int x with
  | Some k => k =? n
  | None => false
  end.

End PyFloat.

Import PyFloat.

(** ** The Qt values the icon holds *)

Module Qt.

Inductive PenStyle :=
| NoPen | SolidLine | DashLine | DotLine | DashDotLine | DashDotDotLine
| CustomDashLine.

Inductive BrushStyle :=
| NoBrush | SolidPattern | Dense1Pattern | Dense2Pattern | Dense3Pattern
| Dense4Pattern | Dense5Pattern | Dense6Pattern | Dense7Pattern
| HorPattern | VerPattern | CrossPattern | BDiagPattern | FDiagPattern
| DiagCrossPattern.

Inductive Orientation := Horizontal | Vertical.

Definition PenStyle_eqb (a b : PenStyle) : bool :=
  match a, b with
  | NoPen, NoPen | SolidLine, SolidLine | DashLine, DashLine
  | DotLine, DotLine | DashDotLine, DashDotLine
  | DashDotDotLine, DashDotDotLine | CustomDashLine, CustomDashLine => true
  | _, _ => false
  end.

Definition BrushStyle_eq_dec (a b : BrushStyle) : {a = b} + {a <> b}.
Proof. decide equality. Defined.

Definition BrushStyle_eqb (a b : BrushStyle) : bool :=
  if BrushStyle_eq_dec a b then true else false.

End Qt.

(** [QColor(r, g, b)]: an opaque RGB colour. *)
Record QColor := mkQColor {
  red : Z;
  green : Z;
  blue : Z;
  alpha : Z
}.

Definition QColor_rgb (r g b : Z) : QColor := mkQColor r g b 255.

Definition QColor_eqb (a b : QColor) : bool :=
  (red a =? red b) && (green a =? green b) && (blue a =? blue b)
  && (alpha a =? alpha b).

(** [QBrush(color, style)]. *)
Record QBrush := mkQBrush {
  brush_color : QColor;
  brush_style : Qt.BrushStyle
}.

Definition QBrush_eqb (a b : QBrush) : bool :=
  QColor_eqb (brush_color a) (brush_color b)
  && Qt.BrushStyle_eqb (brush_style a) (brush_style b).

(** The width a [QPen] carries is what one of its two setters was handed:
    [setWidthF(qreal)] a float, [setWidth(int)] a C int. *)
Inductive QPenWidth :=
| FloatWidth (w : float)
| IntWidth (n : Z).

Record QPen := mkQPen {
  pen_style : Qt.PenStyle;
  pen_cosmetic : bool;
  pen_width : QPenWidth;
  pen_color : QColor
}.

(** [QPen(style)]: a black pen of width 1 with the given style. *)
Definition QPen_new (style : Qt.PenStyle) : QPen :=
  mkQPen style false (IntWidth 1) (QColor_rgb 0 0 0).

Definition QPen_setCosmetic (c : bool) (p : QPen) : QPen :=
  mkQPen (pen_style p) c (pen_width p) (pen_color p).

(** Qt takes a pen width from 0 up to, not including, 2^15; both width
    setters warn about any other width and leave the pen as it is.  (A
    width equal to the one carried is the same width again.) *)
Definition QPen_max_width : Z := 32768.

Definition QPen_max_widthF : float := S754_finite false 4503599627370496 (-37).

Definition QPen_setWidthF (w : float) (p : QPen) : QPen :=
  if PyFloat.ltb w PyFloat.zero || PyFloat.leb QPen_max_widthF w then p
  else mkQPen (pen_style p) (pen_cosmetic p) (FloatWidth w) (pen_color p).

Definition QPen_setWidth (n : Z) (p : QPen) : QPen :=
  if (n <? 0) || (QPen_max_width <=? n) then p
  else mkQPen (pen_style p) (pen_cosmetic p) (IntWidth n) (pen_color p).

Definition QPen_setColor (c : QColor) (p : QPen) : QPen :=
  mkQPen (pen_style p) (pen_cosmetic p) (pen_width p) c.

Definition QPen_setStyle (s : Qt.PenStyle) (p : QPen) : QPen :=
  mkQPen s (pen_cosmetic p) (pen_width p) (pen_color p).

(** The width carried by the pen is the number [w]. *)
Definition QPenWidth_is (pw : QPenWidth) (w : float) : bool :=
  match pw with
  | FloatWidth x => PyFloat.eqb x w
  | IntWidth n => PyFloat.is_int w n
  end.

(** The width carried by the pen is a whole number. *)
Definition QPenWidth_integral (pw : QPenWidth) : bool :=
  match pw with
  | FloatWidth x => PyFloat.is_integer x
  | IntWidth _ => true
  end.

(** ** The outcome of a call

    A Python method that mutates [self] and then raises leaves the
    mutation in place: both outcomes carry the widget after the call. *)

Inductive completion (A : Type) :=
| Returns (a : A)
| Raises (a : A).

Arguments Returns {A} a.
Arguments Raises {A} a.

Definition after {A : Type} (c : completion A) : A :=
  match c with
  | Returns a => a
  | Raises a => a
  end.

Definition returned {A : Type} (c : completion A) : bool :=
  match c with
  | Returns _ => true
  | Raises _ => false
  end.

(** ** icons/base.py: [BaseSymbolIcon] *)

Record QRect := mkQRect {
  rect_x : Z;
  rect_y : Z;
  rect_width : Z;
  rect_height : Z
}.

Record QPaintEvent := mkQPaintEvent {
  rect : QRect
}.

(** The calls a [QPainter] receives, in the order it receives them. *)
Inductive PainterCall :=
| setClipping (enable : bool)
| drawPrimitive_PE_Widget
| setRenderHint_Antialiasing
| translate (dx dy : float)
| rotate (angle : float)
| scale (sx sy : float)
| setBrush (b : QBrush)
| setPen (p : QPen).

Definition QPainter := list PainterCall.

Definition call (c : PainterCall) (painter : QPainter) : QPainter :=
  painter ++ [c].

Record BaseSymbolIcon := mkIcon {
  _brush : QBrush;
  _original_brush : option QBrush;
  _rotation : float;
  _pen_style : Qt.PenStyle;
  _pen : QPen;
  _pen_width : float;
  _pen_color : QColor;
  _original_pen_style : Qt.PenStyle;
  _original_pen_color : QColor;
  objectName : string;
  (** the number of times [self.update()] was called *)
  update_calls : nat
}.

Module Icon.

Definition set_brush (b : QBrush) (self : BaseSymbolIcon) :=
  mkIcon b (_original_brush self) (_rotation self) (_pen_style self)
    (_pen self) (_pen_width self) (_pen_color self)
    (_original_pen_style self) (_original_pen_color self)
    (objectName self) (update_calls self).

Definition set_rotation (a : float) (self : BaseSymbolIcon) :=
  mkIcon (_brush self) (_original_brush self) a (_pen_style self)
    (_pen self) (_pen_width self) (_pen_color self)
    (_original_pen_style self) (_original_pen_color self)
    (objectName self) (update_calls self).

Definition set_pen_style (s : Qt.PenStyle) (self : BaseSymbolIcon) :=
  mkIcon (_brush self) (_original_brush self) (_rotation self) s
    (_pen self) (_pen_width self) (_pen_color self)
    (_original_pen_style self) (_original_pen_color self)
    (objectName self) (update_calls self).

Definition set_pen (p : QPen) (self : BaseSymbolIcon) :=
  mkIcon (_brush self) (_original_brush self) (_rotation self)
    (_pen_style self) p (_pen_width self) (_pen_color self)
    (_original_pen_style self) (_original_pen_color self)
    (objectName self) (update_calls self).

Definition set_pen_width (w : float) (self : BaseSymbolIcon) :=
  mkIcon (_brush self) (_original_brush self) (_rotation self)
    (_pen_style self) (_pen self) w (_pen_color self)
    (_original_pen_style self) (_original_pen_color self)
    (objectName self) (update_calls self).

Definition set_pen_color (c : QColor) (self : BaseSymbolIcon) :=
  mkIcon (_brush self) (_original_brush self) (_rotation self)
    (_pen_style self) (_pen self) (_pen_width self) c
    (_original_pen_style self) (_original_pen_color self)
    (objectName self) (update_calls self).

(** [self.update()]: one more repaint request. *)
Definition update (self : BaseSymbolIcon) :=
  mkIcon (_brush self) (_original_brush self) (_rotation self)
    (_pen_style self) (_pen self) (_pen_width self) (_pen_color self)
    (_original_pen_style self) (_original_pen_color self)
    (objectName self) (S (update_calls self)).

(** [__init__]: the attributes in the order the constructor assigns them.
    [_rotation] starts as the int [0], read back through the float
    property as [0.0]. *)
Definition init : BaseSymbolIcon :=
  let brush := mkQBrush (QColor_rgb 0 255 0) Qt.SolidPattern in
  let pen_style := Qt.SolidLine in
  let pen := QPen_setCosmetic true (QPen_new pen_style) in
  let pen_width := PyFloat.one in
  let pen_color := QColor_rgb 0 0 0 in
  let pen := QPen_setWidthF pen_width pen in
  let pen := QPen_setColor pen_color pen in
  mkIcon brush None PyFloat.zero pen_style pen pen_width pen_color
    pen_style pen_color "icon"%string 0%nat.

Definition minimumSizeHint (self : BaseSymbolIcon) : Z * Z := (32, 32).

(** The base class draws nothing ([pass]). *)
Definition draw_icon (self : BaseSymbolIcon) (painter : QPainter)
  : QPainter := painter.

(** *** Property getters *)

Definition brush (self : BaseSymbolIcon) : QBrush := _brush self.
Definition penStyle (self : BaseSymbolIcon) : Qt.PenStyle := _pen_style self.
Definition penColor (self : BaseSymbolIcon) : QColor := _pen_color self.
Definition penWidth (self : BaseSymbolIcon) : float := _pen_width self.
Definition rotation (self : BaseSymbolIcon) : float := _rotation self.

(** *** Property setters *)

Definition brush_setter (new_brush : QBrush) (self : BaseSymbolIcon)
  : BaseSymbolIcon :=
  if negb (QBrush_eqb new_brush (_brush self)) then
    update (set_brush new_brush self)
  else self.

Definition penStyle_setter (new_style : Qt.PenStyle) (self : BaseSymbolIcon)
  : BaseSymbolIcon :=
  if negb (Qt.PenStyle_eqb new_style (_pen_style self)) then
    let self := set_pen_style new_style self in
    let self := set_pen (QPen_setStyle new_style (_pen self)) self in
    update self
  else self.

Definition penColor_setter (new_color : QColor) (self : BaseSymbolIcon)
  : BaseSymbolIcon :=
  if negb (QColor_eqb new_color (_pen_color self)) then
    let self := set_pen_color new_color self in
    let self := set_pen (QPen_setColor new_color (_pen self)) self in
    update self
  else self.

Definition rotation_setter (angle : float) (self : BaseSymbolIcon)
  : BaseSymbolIcon :=
  update (set_rotation angle self).

Section Binding.

(** [QPen.setWidth] takes a C int and the setter hands it the Python
    float [self._pen_width].  What the Qt binding makes of a float
    there is the binding's business: [as_int w = Some n] when it passes
    the int [n] on, [None] when the call raises.  Two bindings are
    [converting_binding] and [strict_binding] below. *)
Variable as_int : float -> option Z.

Definition penWidth_setter (new_width : float) (self : BaseSymbolIcon)
  : completion BaseSymbolIcon :=
  if PyFloat.ltb new_width PyFloat.zero then Returns self
  else if PyFloat.neqb new_width (_pen_width self) then
    let self := set_pen_width new_width self in
    match as_int (_pen_width self) with
    | None => Raises self
    | Some n =>
        let self := set_pen (QPen_setWidth n (_pen self)) self in
        Returns (update self)
    end
  else Returns self.

End Binding.

(** *** [paintEvent] *)

Section Paint.

(** [draw_icon] is overridden by each icon class: it draws on the painter
    it is given. *)
Variable draw_icon : BaseSymbolIcon -> QPainter -> QPainter.

(** The painter as it is when [draw_icon] is called. *)
Definition painter_before_draw_icon (self : BaseSymbolIcon)
  (event : QPaintEvent) : QPainter :=
  let painter : QPainter := [] in
  let painter := call (setClipping true) painter in
  let painter := call drawPrimitive_PE_Widget painter in
  let painter := call setRenderHint_Antialiasing painter in
  let x := rect_x (rect event) in
  let y := rect_y (rect event) in
  let w := rect_width (rect event) in
  let h := rect_height (rect event) in
  let painter :=
    call (translate (div (of_int w) two) (div (of_int h) two)) painter in
  let painter := call (rotate (_rotation self)) painter in
  let painter :=
    call (translate (div (of_int (- w)) two) (div (of_int (- h)) two))
      painter in
  let painter :=
    call (translate (div (_pen_width self) two) (div (_pen_width self) two))
      painter in
  let painter :=
    call (scale (sub (of_int w) (_pen_width self))
                (sub (of_int h) (_pen_width self))) painter in
  let painter := call (translate (of_int x) (of_int y)) painter in
  let painter := call (setBrush (_brush self)) painter in
  let painter := call (setPen (_pen self)) painter in
  painter.

(** [paintEvent] returns the painter after [draw_icon]; the closing
    [QWidget.paintEvent(self, event)] paints nothing of its own and
    leaves the icon as it is. *)
Definition paintEvent (self : BaseSymbolIcon) (event : QPaintEvent)
  : BaseSymbolIcon * QPainter :=
  (self, draw_icon self (painter_before_draw_icon self event)).

End Paint.

End Icon.

(** *** Two bindings

    A binding that converts implicitly calls [int()] on the float and
    raises when that raises or when the int does not fit a C int; a strict
    binding takes no float where Qt wants an int and raises on every
    one. *)

Definition fits_c_int (n : Z) : bool :=
  (- 2147483648 <=? n) && (n <=? 2147483647).

Definition converting_binding (w : float) : option Z :=
  match PyFloat.to_int w with
  | Some n => if fits_c_int n then Some n else None
  | None => None
  end.

Definition strict_binding (w : float) : option Z := None.

(** *** The operations of the widget *)

Inductive IconOp :=
| SetBrush (new_brush : QBrush)
| SetPenStyle (new_style : Qt.PenStyle)
| SetPenColor (new_color : QColor)
| SetPenWidth (new_width : float)
| SetRotation (angle : float)
| Paint (event : QPaintEvent).

Section IconOperations.

Variable as_int : float -> option Z.
Variable draw_icon : BaseSymbolIcon -> QPainter -> QPainter.

(** The icon after one operation, whether the call returned or raised. *)
Definition exec (op : IconOp) (self : BaseSymbolIcon) : BaseSymbolIcon :=
  match op with
  | SetBrush b => Icon.brush_setter b self
  | SetPenStyle s => Icon.penStyle_setter s self
  | SetPenColor c => Icon.penColor_setter c self
  | SetPenWidth w => after (Icon.penWidth_setter as_int w self)
  | SetRotation a => Icon.rotation_setter a self
  | Paint ev => fst (Icon.paintEvent draw_icon self ev)
  end.

(** The icon after construction and a sequence of operations. *)
Definition run (ops : list IconOp) : BaseSymbolIcon :=
  fold_left (fun self op => exec op self) ops Icon.init.

End IconOperations.

(** ** symbols/valves.py: [PneumaticValve] and [FastShutter]

    Both classes derive from [InterlockMixin], [ErrorMixin],
    [OpenCloseStateMixin] and [PCDSSymbolBase], and use the enumeration
    [ContentLocation].  Those live in [symbols/mixins.py] and
    [symbols/base.py]; what the two classes use of them is an interface
    here: the members [Top] and [Bottom] of the enumeration with its
    equality, and the four inherited methods the classes extend, each an
    arbitrary function of the widget. *)

Record QFrame := mkQFrame {
  enabled : bool
}.

Definition QFrame_setEnabled (b : bool) (f : QFrame) : QFrame := mkQFrame b.

Record PyDMEnumButton := mkButton {
  orientation : Qt.Orientation;
  minimumSize : Z * Z;
  channel : option string
}.

Definition set_orientation (o : Qt.Orientation) (b : PyDMEnumButton) :=
  mkButton o (minimumSize b) (channel b).

Definition setMinimumSize (w h : Z) (b : PyDMEnumButton) :=
  mkButton (orientation b) (w, h) (channel b).

(** [str(value)] for a [str] or [None]. *)
Definition PyDM_str (value : option string) : string :=
  match value with
  | Some s => s
  | None => "None"%string
  end.

(** [a != b] between two values that are each a [str] or [None]. *)
Definition PyDM_differs (a b : option string) : bool :=
  match a, b with
  | Some s, Some t => negb (String.eqb s t)
  | None, None => false
  | _, _ => true
  end.

(** The [channel] setter of pydm: a value that differs from the stored
    address is stored as [str(value)], so that [None], assigned over an
    address, is stored as the string "None"; [channel] here is the stored
    address [_channel]. *)
Definition set_channel (value : option string) (b : PyDMEnumButton) :=
  if PyDM_differs (channel b) value then
    mkButton (orientation b) (minimumSize b) (Some (PyDM_str value))
  else b.

(** The attributes of a symbol widget that [valves.py] reads or writes;
    [inherited] stands for everything else the base classes keep.
    [_interlocked] is a Python bool or int ([False] is [0], [True] is [1]),
    [_channels_prefix] a [str] or [None]. *)
Record Symbol (ContentLocation Inherited : Type) := mkSymbol {
  _interlocked : Z;
  _controls_location : ContentLocation;
  _channels_prefix : option string;
  controls_frame : QFrame;
  open_close_btn : PyDMEnumButton;
  inherited : Inherited
}.

Arguments mkSymbol {ContentLocation Inherited}.
Arguments _interlocked {ContentLocation Inherited}.
Arguments _controls_location {ContentLocation Inherited}.
Arguments _channels_prefix {ContentLocation Inherited}.
Arguments controls_frame {ContentLocation Inherited}.
Arguments open_close_btn {ContentLocation Inherited}.
Arguments inherited {ContentLocation Inherited}.

(** The enumeration [ContentLocation], as far as [valves.py] names it. *)
Class ContentLocationEnum (L : Type) := {
  Top : L;
  Bottom : L;
  location_eq_dec : forall a b : L, {a = b} + {a <> b}
}.

(** The inherited methods that [valves.py] calls through [super()] or by
    class name. *)
Class SymbolBase (L I : Type) := {
  InterlockMixin_interlock_value_changed : Z -> Symbol L I -> Symbol L I;
  PCDSSymbolBase_assemble_layout : Symbol L I -> Symbol L I;
  PCDSSymbolBase_create_channels : Symbol L I -> Symbol L I;
  PCDSSymbolBase_destroy_channels : Symbol L I -> Symbol L I
}.

(** The keyword arguments a class hands to the constructors of its bases. *)
Record SuffixKwargs := mkKwargs {
  interlock_suffix : string;
  error_suffix : string;
  open_suffix : string;
  close_suffix : string
}.

Module Py.

(** Truth value of a Python int or bool. *)
Definition truthy (v : Z) : bool := negb (v =? 0).

(** Truth value of a [str] or [None]. *)
Definition str_truthy (s : option string) : bool :=
  match s with
  | None => false
  | Some EmptyString => false
  | Some (String _ _) => true
  end.

(** ["{}{}".format(a, b)] for two strings. *)
Definition format2 (a b : string) : string := (a ++ b)%string.

(** [x in xs] for a list. *)
Definition contains {A : Type} (eq_dec : forall a b : A, {a = b} + {a <> b})
  (x : A) (xs : list A) : bool :=
  existsb (fun y => if eq_dec x y then true else false) xs.

End Py.

Section SymbolFields.

Context {L I : Type}.

Definition set_controls_location (l : L) (self : Symbol L I) :=
  mkSymbol (_interlocked self) l (_channels_prefix self)
    (controls_frame self) (open_close_btn self) (inherited self).

Definition set_controls_frame (f : QFrame) (self : Symbol L I) :=
  mkSymbol (_interlocked self) (_controls_location self)
    (_channels_prefix self) f (open_close_btn self) (inherited self).

Definition set_open_close_btn (b : PyDMEnumButton) (self : Symbol L I) :=
  mkSymbol (_interlocked self) (_controls_location self)
    (_channels_prefix self) (controls_frame self) b (inherited self).

End SymbolFields.

Module PneumaticValve.

Definition _interlock_suffix : string := ":OPN_OK".
Definition _error_suffix : string := ":STATE".
Definition _open_state_suffix : string := ":OPN_DI".
Definition _close_state_suffix : string := ":CLS_DI".

Definition NAME : string := "Pneumatic Valve".

(** The suffixes [__init__] passes to [super().__init__]. *)
Definition init_kwargs : SuffixKwargs :=
  mkKwargs _interlock_suffix _error_suffix _open_state_suffix
    _close_state_suffix.

Section Methods.

Context {L I : Type} `{ContentLocationEnum L} `{SymbolBase L I}.

Definition controlsLocation (self : Symbol L I) : L :=
  _controls_location self.

Definition sizeHint (self : Symbol L I) : Z * Z := (200, 200).

Definition assemble_layout (self : Symbol L I) : Symbol L I :=
  let self := PCDSSymbolBase_assemble_layout self in
  if Py.contains location_eq_dec (controlsLocation self) [Top; Bottom]
  then
    let btn := set_orientation Qt.Horizontal (open_close_btn self) in
    set_open_close_btn (setMinimumSize 100 40 btn) self
  else
    let btn := set_orientation Qt.Vertical (open_close_btn self) in
    set_open_close_btn (setMinimumSize 100 80 btn) self.

Definition controlsLocation_setter (location : L) (self : Symbol L I)
  : Symbol L I :=
  if location_eq_dec location (_controls_location self) then self
  else assemble_layout (set_controls_location location self).

Definition create_channels (self : Symbol L I) : Symbol L I :=
  let self := PCDSSymbolBase_create_channels self in
  match _channels_prefix self with
  | Some prefix =>
      if Py.str_truthy (Some prefix) then
        set_open_close_btn
          (set_channel (Some (Py.format2 prefix ":OPN_SW"))
             (open_close_btn self)) self
      else self
  | None => self
  end.

Definition destroy_channels (self : Symbol L I) : Symbol L I :=
  let self := PCDSSymbolBase_destroy_channels self in
  set_open_close_btn (set_channel None (open_close_btn self)) self.

Definition interlock_value_changed (value : Z) (self : Symbol L I)
  : Symbol L I :=
  let self := InterlockMixin_interlock_value_changed value self in
  set_controls_frame
    (QFrame_setEnabled (negb (Py.truthy (_interlocked self)))
       (controls_frame self)) self.

End Methods.

End PneumaticValve.

Module FastShutter.

Definition _interlock_suffix : string := ":OPN_OK".
Definition _error_suffix : string := ":ERROR".
Definition _open_state_suffix : string := ":OPN_DI".
Definition _close_state_suffix : string := ":CLS_DI".

Definition NAME : string := "Fast Shutter".

(** The suffixes [__init__] passes to [super().__init__]. *)
Definition init_kwargs : SuffixKwargs :=
  mkKwargs _interlock_suffix _error_suffix _open_state_suffix
    _close_state_suffix.

Section Methods.

Context {L I : Type} `{ContentLocationEnum L} `{SymbolBase L I}.

Definition controlsLocation (self : Symbol L I) : L :=
  _controls_location self.

Definition sizeHint (self : Symbol L I) : Z * Z := (200, 200).

Definition assemble_layout (self : Symbol L I) : Symbol L I :=
  let self := PCDSSymbolBase_assemble_layout self in
  if Py.contains location_eq_dec (controlsLocation self) [Top; Bottom]
  then
    let btn := set_orientation Qt.Horizontal (open_close_btn self) in
    set_open_close_btn (setMinimumSize 100 40 btn) self
  else
    let btn := set_orientation Qt.Vertical (open_close_btn self) in
    set_open_close_btn (setMinimumSize 100 80 btn) self.

Definition controlsLocation_setter (location : L) (self : Symbol L I)
  : Symbol L I :=
  if location_eq_dec location (_controls_location self) then self
  else assemble_layout (set_controls_location location self).

Definition create_channels (self : Symbol L I) : Symbol L I :=
  let self := PCDSSymbolBase_create_channels self in
  match _channels_prefix self with
  | Some prefix =>
      if Py.str_truthy (Some prefix) then
        set_open_close_btn
          (set_channel (Some (Py.format2 prefix ":OPN_SW"))
             (open_close_btn self)) self
      else self
  | None => self
  end.

Definition destroy_channels (self : Symbol L I) : Symbol L I :=
  let self := PCDSSymbolBase_destroy_channels self in
  set_open_close_btn (set_channel None (open_close_btn self)) self.

Definition interlock_value_changed (value : Z) (self : Symbol L I)
  : Symbol L I :=
  let self := InterlockMixin_interlock_value_changed value self in
  set_controls_frame
    (QFrame_setEnabled (negb (Py.truthy (_interlocked self)))
       (controls_frame self)) self.

End Methods.

End FastShutter.

(** The channel suffixes the specification lists as the convention. *)
Definition suffix_conventions : list string :=
  [":OPN_OK"; ":STATE"; ":OPN_DI"; ":CLS_DI"; ":OPN_SW"]%string.

(** *** An instance to run the two classes on

    Five placements, a base state that counts the inherited calls, and
    inherited methods that do what the docstrings in [valves.py] say of
    them: the interlock callback stores the channel value (1 means
    interlocked), the others only count. *)

Inductive Placement := Hidden | AtTop | AtBottom | AtLeft | AtRight.

Definition Placement_eq_dec (a b : Placement) : {a = b} + {a <> b}.
Proof. decide equality. Defined.

#[export] Instance Placement_enum : ContentLocationEnum Placement := {|
  Top := AtTop;
  Bottom := AtBottom;
  location_eq_dec := Placement_eq_dec
|}.

Definition count_call (self : Symbol Placement nat) : Symbol Placement nat :=
  mkSymbol (_interlocked self) (_controls_location self)
    (_channels_prefix self) (controls_frame self) (open_close_btn self)
    (S (inherited self)).

Definition store_interlock (value : Z) (self : Symbol Placement nat)
  : Symbol Placement nat :=
  mkSymbol value (_controls_location self) (_channels_prefix self)
    (controls_frame self) (open_close_btn self) (S (inherited self)).

#[export] Instance counting_base : SymbolBase Placement nat := {|
  InterlockMixin_interlock_value_changed := store_interlock;
  PCDSSymbolBase_assemble_layout := count_call;
  PCDSSymbolBase_create_channels := count_call;
  PCDSSymbolBase_destroy_channels := count_call
|}.

Definition sample_symbol (location : Placement) (prefix : option string)
  : Symbol Placement nat :=
  mkSymbol 0 location prefix (mkQFrame true)
    (mkButton Qt.Vertical (0, 0) None) 0%nat.

(** Where the width of a pen comes from: [setWidthF(1.0)] in the
    constructor, or [setWidth] with an int. *)
Definition set_by_constructor_or_setWidth (pw : QPenWidth) : Prop :=
  pw = FloatWidth PyFloat.one \/ exists n, pw = IntWidth n.

(** The two readings of a width that is not negative: at least zero, and
    not below zero (the negation of the setter's guard).  They differ on
    NaN alone ([not_ltb_zero], [leb_zero_not_ltb]). *)
Definition nonnegative (w : float) : Prop := PyFloat.leb PyFloat.zero w = true.
Definition not_below_zero (w : float) : Prop :=
  PyFloat.ltb w PyFloat.zero = false.

Definition minus_one : float := S754_finite true 4503599627370496 (-52).
Definition one_and_a_half : float := S754_finite false 6755399441055744 (-52).

(** ** Operations by the property they assign *)

Inductive IconProperty :=
| P_brush | P_penStyle | P_penColor | P_penWidth | P_rotation.

(** The property an operation assigns; a paint event assigns none. *)
Definition assigned (op : IconOp) : option IconProperty :=
  match op with
  | SetBrush _ => Some P_brush
  | SetPenStyle _ => Some P_penStyle
  | SetPenColor _ => Some P_penColor
  | SetPenWidth _ => Some P_penWidth
  | SetRotation _ => Some P_rotation
  | Paint _ => None
  end.

Definition is_assignment (op : IconOp) : bool :=
  match assigned op with
  | Some _ => true
  | None => false
  end.

(** The icon after a sequence of operations, from any state. *)
Definition run_from (as_int : float -> option Z)
  (draw_icon : BaseSymbolIcon -> QPainter -> QPainter)
  (self : BaseSymbolIcon) (ops : list IconOp) : BaseSymbolIcon :=
  fold_left (fun self op => exec as_int draw_icon op self) ops self.

(** The cached style and colour are those of the pen, which is cosmetic. *)
Definition pen_in_sync (self : BaseSymbolIcon) : Prop :=
  pen_style (_pen self) = _pen_style self
  /\ pen_color (_pen self) = _pen_color self
  /\ pen_cosmetic (_pen self) = true.

(** An int that Qt takes as a pen width. *)
Definition QPen_takes (n : Z) : Prop := 0 <= n < QPen_max_width.

(** The pen has the width the constructor gave it, the stored width being
    the constructor's too, or the int the binding makes of the stored
    width, if it makes one that Qt takes. *)
Definition pen_width_in_sync (as_int : float -> option Z)
  (self : BaseSymbolIcon) : Prop :=
  (_pen_width self = PyFloat.one
   /\ pen_width (_pen self) = FloatWidth PyFloat.one)
  \/ (forall n, as_int (_pen_width self) = Some n -> QPen_takes n ->
                pen_width (_pen self) = IntWidth n).


(** ** Facts about float comparison *)

Lemma compare_cont_Eq_eq (m n : positive) :
  Pos.compare_cont Eq m n = Eq -> m = n.
Proof. exact (Pos.compare_eq m n). Qed.

(** [x == y] holds between two zeros of any sign and between two equal
    numbers, and never involves NaN. *)
Lemma eqb_true_inv (x y : float) :
  PyFloat.eqb x y = true ->
  (exists s t, x = S754_zero s /\ y = S754_zero t) \/
  (x = y /\ x <> S754_nan).
Proof.
  unfold PyFloat.eqb, SFeqb.
  destruct x as [s| s| |s m e], y as [t| t| |t n f]; simpl;
    try discriminate;
    try (destruct s; discriminate);
    try (destruct t; discriminate).
  - intros _. left. now exists s, t.
  - destruct s, t; try discriminate; intros _; right;
      split; congruence.
  - destruct s, t; try discriminate;
      destruct (Z.compare_spec e f) as [He|He|He]; try discriminate;
      subst f; intros H; right.
    + destruct (Pos.compare_cont Eq m n) eqn:Hc; try discriminate.
      apply compare_cont_Eq_eq in Hc. subst n. split; congruence.
    + destruct (Pos.compare_cont Eq m n) eqn:Hc; try discriminate.
      apply compare_cont_Eq_eq in Hc. subst n. split; congruence.
Qed.

Lemma eqb_refl (x : float) : x <> S754_nan -> PyFloat.eqb x x = true.
Proof.
  unfold PyFloat.eqb, SFeqb.
  destruct x as [s| s| |s m e]; simpl; intros H;
    try reflexivity; try congruence.
  - now destruct s.
  - destruct s; rewrite Z.compare_refl, Pos.compare_cont_refl; reflexivity.
Qed.

Lemma eqb_zeros (s t : bool) :
  PyFloat.eqb (S754_zero s) (S754_zero t) = true.
Proof. reflexivity. Qed.

Lemma eqb_sym (x y : float) :
  PyFloat.eqb x y = true -> PyFloat.eqb y x = true.
Proof.
  intros H. destruct (eqb_true_inv x y H) as [(s & t & -> & ->)|[<- Hn]].
  - apply eqb_zeros.
  - now apply eqb_refl.
Qed.

Lemma eqb_is_integer (x y : float) :
  PyFloat.eqb x y = true -> PyFloat.is_integer x = PyFloat.is_integer y.
Proof.
  intros H. destruct (eqb_true_inv x y H) as [(s & t & -> & ->)|[<- _]];
    reflexivity.
Qed.

Lemma leb_zero_not_nan (x : float) :
  PyFloat.leb PyFloat.zero x = true -> x <> S754_nan.
Proof. intros H ->. discriminate H. Qed.

(** A float that is at least zero is not below zero. *)
Lemma leb_zero_not_ltb (x : float) :
  PyFloat.leb PyFloat.zero x = true -> PyFloat.ltb x PyFloat.zero = false.
Proof.
  unfold PyFloat.leb, PyFloat.ltb, SFleb, SFltb, PyFloat.zero.
  destruct x as [s| s| |s m e]; simpl; try reflexivity;
    destruct s; simpl; intros H; try reflexivity; discriminate H.
Qed.

(** A float that is not below zero is at least zero, or NaN. *)
Lemma not_ltb_zero (x : float) :
  PyFloat.ltb x PyFloat.zero = false ->
  PyFloat.leb PyFloat.zero x = true \/ x = S754_nan.
Proof.
  unfold PyFloat.leb, PyFloat.ltb, SFleb, SFltb, PyFloat.zero.
  destruct x as [s| s| |s m e]; simpl; auto;
    destruct s; simpl; intros H; auto; discriminate H.
Qed.

(** An integer is never the value of a float that is not whole. *)
Lemma is_int_not_integer (w : float) (n : Z) :
  PyFloat.is_integer w = false -> PyFloat.is_int w n = false.
Proof. unfold PyFloat.is_int. now intros ->. Qed.

Lemma QPenWidth_integral_differs (pw : QPenWidth) (w : float) :
  QPenWidth_integral pw = true ->
  PyFloat.is_integer w = false ->
  QPenWidth_is pw w = false.
Proof.
  destruct pw as [x|n]; simpl; intros Hpw Hw.
  - destruct (PyFloat.eqb x w) eqn:E; [|reflexivity].
    apply eqb_is_integer in E. congruence.
  - now apply is_int_not_integer.
Qed.

(** ** Facts about the value comparisons of Qt *)

Lemma QColor_eqb_eq (a b : QColor) : QColor_eqb a b = true <-> a = b.
Proof.
  unfold QColor_eqb. destruct a, b; simpl.
  rewrite !andb_true_iff, !Z.eqb_eq. split.
  - intros [[[-> ->] ->] ->]. reflexivity.
  - intros H. injection H as -> -> -> ->. auto.
Qed.

Lemma BrushStyle_eqb_eq (a b : Qt.BrushStyle) :
  Qt.BrushStyle_eqb a b = true <-> a = b.
Proof.
  unfold Qt.BrushStyle_eqb.
  destruct (Qt.BrushStyle_eq_dec a b); split; congruence.
Qed.

Lemma QBrush_eqb_eq (a b : QBrush) : QBrush_eqb a b = true <-> a = b.
Proof.
  unfold QBrush_eqb. destruct a, b; simpl.
  rewrite andb_true_iff, QColor_eqb_eq, BrushStyle_eqb_eq. split.
  - intros [-> ->]. reflexivity.
  - intros H. injection H as -> ->. auto.
Qed.

Lemma PenStyle_eqb_eq (a b : Qt.PenStyle) :
  Qt.PenStyle_eqb a b = true <-> a = b.
Proof. destruct a, b; simpl; split; congruence. Qed.

Lemma eqb_false_of_neq {A : Type} (f : A -> A -> bool) (a b : A) :
  (f a b = true <-> a = b) -> a <> b -> f a b = false.
Proof.
  intros H Hn. destruct (f a b) eqn:E; [|reflexivity].
  exfalso. apply Hn, H. reflexivity.
Qed.

(** ** [BaseSymbolIcon]: the pen width *)

Example minus_one_is_float : of_int (-1) = minus_one.
Proof. reflexivity. Qed.

Example one_and_a_half_is_float : div (of_int 3) two = one_and_a_half.
Proof. reflexivity. Qed.

Example constants_are_binary64 :
  forallb PyFloat.valid
    [PyFloat.zero; PyFloat.neg_zero; PyFloat.one; two; minus_one;
     one_and_a_half; PyFloat.inf; PyFloat.nan] = true.
Proof. reflexivity. Qed.

Example one_is_float : of_int 1 = PyFloat.one /\ of_int 2 = two.
Proof. split; reflexivity. Qed.

Example QPen_max_widthF_is_float :
  of_int QPen_max_width = QPen_max_widthF
  /\ PyFloat.valid QPen_max_widthF = true.
Proof. split; reflexivity. Qed.

Example converting_binding_examples :
  converting_binding one_and_a_half = Some 1
  /\ converting_binding PyFloat.inf = None
  /\ converting_binding PyFloat.nan = None
  /\ converting_binding (of_int 4294967296) = None.
Proof. repeat split; reflexivity. Qed.

Example to_int_truncates :
  to_int one_and_a_half = Some 1
  /\ to_int (SFopp one_and_a_half) = Some (-1)
  /\ to_int two = Some 2
  /\ to_int PyFloat.inf = None
  /\ to_int PyFloat.nan = None.
Proof. repeat split; reflexivity. Qed.

Example is_integer_examples :
  is_integer two = true /\ is_integer one_and_a_half = false
  /\ is_integer PyFloat.inf = false.
Proof. repeat split; reflexivity. Qed.

(** Assigning [-0.0] over a stored [0.0] changes nothing, since
    [-0.0 < 0] and [-0.0 != 0.0] are both false: the getter then returns a
    value equal to the one assigned, not the one assigned. *)
Example penWidth_negative_zero :
  let self := after (Icon.penWidth_setter to_int PyFloat.zero Icon.init) in
  Icon.penWidth self = PyFloat.zero
  /\ Icon.penWidth_setter to_int PyFloat.neg_zero self = Returns self.
Proof. split; reflexivity. Qed.

(** The new width is stored before the pen is told: when the call on the
    pen raises, the width stays stored and no repaint is requested. *)
Example penWidth_stored_before_raise :
  let c := Icon.penWidth_setter (fun _ => None) two Icon.init in
  returned c = false
  /\ Icon.penWidth (after c) = two
  /\ _pen (after c) = _pen Icon.init
  /\ update_calls (after c) = 0%nat.
Proof. repeat split; reflexivity. Qed.

Example penWidth_minus_one :
  Icon.penWidth_setter to_int minus_one Icon.init = Returns Icon.init.
Proof. reflexivity. Qed.

Example penWidth_two :
  Icon.penWidth (after (Icon.penWidth_setter to_int two Icon.init)) = two
  /\ pen_width (_pen (after (Icon.penWidth_setter to_int two Icon.init)))
     = IntWidth 2.
Proof. split; reflexivity. Qed.

(** C2. A negative value assigned to [penWidth] is silently rejected: the
    setter returns without raising and leaves the widget exactly as it was,
    so the stored width, the pen and the count of repaint requests are
    unchanged, and the getter still returns the previous width. *)
Theorem penWidth_negative_rejected
  (as_int : float -> option Z) (w : float) (self : BaseSymbolIcon) :
  PyFloat.ltb w PyFloat.zero = true ->
  let c := Icon.penWidth_setter as_int w self in
  returned c = true
  /\ after c = self
  /\ _pen_width (after c) = _pen_width self
  /\ _pen (after c) = _pen self
  /\ update_calls (after c) = update_calls self
  /\ Icon.penWidth (after c) = Icon.penWidth self.
Proof.
  intros Hneg. unfold Icon.penWidth_setter. rewrite Hneg. simpl.
  repeat split; reflexivity.
Qed.

Lemma penWidth_negative_rejected_witness :
  let c := Icon.penWidth_setter to_int minus_one Icon.init in
  returned c = true
  /\ after c = Icon.init
  /\ _pen_width (after c) = _pen_width Icon.init
  /\ _pen (after c) = _pen Icon.init
  /\ update_calls (after c) = update_calls Icon.init
  /\ Icon.penWidth (after c) = Icon.penWidth Icon.init.
Proof.
  apply (penWidth_negative_rejected to_int minus_one Icon.init).
  reflexivity.
Defined.

(** What the width setter leaves in [_pen_width]: the old width or the
    new one, and the new one only when it is not below zero. *)
Lemma penWidth_setter_stored
  (as_int : float -> option Z) (w : float) (self : BaseSymbolIcon) :
  _pen_width (after (Icon.penWidth_setter as_int w self)) = _pen_width self
  \/ (_pen_width (after (Icon.penWidth_setter as_int w self)) = w
      /\ not_below_zero w).
Proof.
  unfold Icon.penWidth_setter, not_below_zero.
  destruct (PyFloat.ltb w PyFloat.zero) eqn:Hneg; [now left|].
  destruct (PyFloat.neqb w (_pen_width self)); [|now left].
  simpl. destruct (as_int w); simpl; right; split; reflexivity || assumption.
Qed.

Lemma exec_pen_width
  (as_int : float -> option Z)
  (draw_icon : BaseSymbolIcon -> QPainter -> QPainter)
  (op : IconOp) (self : BaseSymbolIcon) :
  _pen_width (exec as_int draw_icon op self) = _pen_width self
  \/ exists w, op = SetPenWidth w
       /\ _pen_width (exec as_int draw_icon op self) = w
       /\ not_below_zero w.
Proof.
  destruct op as [b|s|c|w|a|ev]; simpl.
  - left. unfold Icon.brush_setter.
    now destruct (negb (QBrush_eqb b (_brush self))).
  - left. unfold Icon.penStyle_setter.
    now destruct (negb (Qt.PenStyle_eqb s (_pen_style self))).
  - left. unfold Icon.penColor_setter.
    now destruct (negb (QColor_eqb c (_pen_color self))).
  - destruct (penWidth_setter_stored as_int w self) as [H|[H1 H2]];
      [now left|right]. now exists w.
  - now left.
  - now left.
Qed.

(** C3, as stated, fails: the stored width is at least zero after
    construction and no longer so once NaN is assigned to [penWidth],
    because [nan < 0] is false and the guard lets it through (the width is
    stored before [setWidth] is called, so it stays whether or not that
    call raises). *)
Lemma pen_width_nonnegative_fails_on_nan :
  nonnegative (_pen_width Icon.init)
  /\ ~ nonnegative
       (_pen_width
          (exec to_int Icon.draw_icon (SetPenWidth PyFloat.nan) Icon.init)).
Proof.
  split.
  - reflexivity.
  - intros H. discriminate H.
Qed.

(** C3, amended. The stored pen width is at least zero in the initial
    state; every operation (each property setter and [paintEvent]) keeps it
    at least zero unless NaN is assigned to [penWidth]; and after every
    operation, that one included, it is never below zero. *)
Theorem pen_width_never_below_zero
  (as_int : float -> option Z)
  (draw_icon : BaseSymbolIcon -> QPainter -> QPainter) :
  nonnegative (_pen_width Icon.init)
  /\ (forall op self,
        op <> SetPenWidth PyFloat.nan ->
        nonnegative (_pen_width self) ->
        nonnegative (_pen_width (exec as_int draw_icon op self)))
  /\ (forall op self,
        not_below_zero (_pen_width self) ->
        not_below_zero (_pen_width (exec as_int draw_icon op self))).
Proof.
  split; [reflexivity|split].
  - intros op self Hop Hinv.
    destruct (exec_pen_width as_int draw_icon op self)
      as [->|(w & -> & -> & Hw)]; [assumption|].
    destruct (not_ltb_zero w Hw) as [Hle| ->]; [assumption|].
    now contradiction Hop.
  - intros op self Hinv.
    destruct (exec_pen_width as_int draw_icon op self)
      as [->|(w & _ & -> & Hw)]; assumption.
Qed.

Lemma pen_width_never_below_zero_witness :
  nonnegative
    (_pen_width (exec to_int Icon.draw_icon (SetPenWidth two) Icon.init))
  /\ not_below_zero
    (_pen_width
       (exec to_int Icon.draw_icon (SetPenWidth PyFloat.nan) Icon.init)).
Proof.
  destruct (pen_width_never_below_zero to_int Icon.draw_icon)
    as (Hinit & Hkeep & Hnot).
  split.
  - apply Hkeep; [discriminate|exact Hinit].
  - apply Hnot. reflexivity.
Defined.

(** ** [BaseSymbolIcon]: reading back and repainting *)

Lemma penWidth_setter_reads_back
  (as_int : float -> option Z) (v : float) (self : BaseSymbolIcon) :
  nonnegative v ->
  PyFloat.eqb (Icon.penWidth (after (Icon.penWidth_setter as_int v self))) v
  = true.
Proof.
  intros Hv. unfold Icon.penWidth_setter, Icon.penWidth.
  rewrite (leb_zero_not_ltb v Hv).
  unfold PyFloat.neqb.
  destruct (SFeqb v (_pen_width self)) eqn:E; simpl.
  - apply eqb_sym. exact E.
  - destruct (as_int v); simpl; apply eqb_refl, leb_zero_not_nan, Hv.
Qed.

(** C7. Reading a property after setting it gives the value set: for
    [brush], [penStyle], [penColor] and [rotation] whatever the value, for
    [penWidth] whenever the value is at least zero (the value read is then
    equal to it in the sense of Python's [==]). *)
Theorem property_set_then_get :
  (forall v self, Icon.brush (Icon.brush_setter v self) = v)
  /\ (forall v self, Icon.penStyle (Icon.penStyle_setter v self) = v)
  /\ (forall v self, Icon.penColor (Icon.penColor_setter v self) = v)
  /\ (forall v self, Icon.rotation (Icon.rotation_setter v self) = v)
  /\ (forall as_int v self,
        nonnegative v ->
        PyFloat.eqb
          (Icon.penWidth (after (Icon.penWidth_setter as_int v self))) v
        = true).
Proof.
  repeat split.
  - intros v self. unfold Icon.brush, Icon.brush_setter.
    destruct (QBrush_eqb v (_brush self)) eqn:E; simpl; [|reflexivity].
    symmetry. now apply QBrush_eqb_eq.
  - intros v self. unfold Icon.penStyle, Icon.penStyle_setter.
    destruct (Qt.PenStyle_eqb v (_pen_style self)) eqn:E; simpl;
      [|reflexivity].
    symmetry. now apply PenStyle_eqb_eq.
  - intros v self. unfold Icon.penColor, Icon.penColor_setter.
    destruct (QColor_eqb v (_pen_color self)) eqn:E; simpl; [|reflexivity].
    symmetry. now apply QColor_eqb_eq.
  - intros as_int v self. apply penWidth_setter_reads_back.
Qed.

Lemma property_set_then_get_witness :
  PyFloat.eqb
    (Icon.penWidth (after (Icon.penWidth_setter to_int two Icon.init))) two
  = true.
Proof.
  destruct property_set_then_get as (_ & _ & _ & _ & Hwidth).
  apply (Hwidth to_int two Icon.init). reflexivity.
Defined.

(** C8, where the code departs from it.  On a freshly constructed icon,
    2.0 is at least zero and differs from the stored 1.0, but on a binding
    that takes no float for the int of [QPen.setWidth] the assignment
    [penWidth = 2.0] raises after storing the width: the getter returns
    2.0, the pen is untouched and [update()] has not been called.  On a
    binding that converts with [int()] the same happens for the infinite
    width. *)
Theorem penWidth_change_without_repaint :
  (let c := Icon.penWidth_setter strict_binding two Icon.init in
   nonnegative two
   /\ PyFloat.neqb two (Icon.penWidth Icon.init) = true
   /\ returned c = false
   /\ Icon.penWidth (after c) = two
   /\ _pen (after c) = _pen Icon.init
   /\ update_calls (after c) = update_calls Icon.init)
  /\ (let c := Icon.penWidth_setter converting_binding PyFloat.inf Icon.init in
      nonnegative PyFloat.inf
      /\ PyFloat.neqb PyFloat.inf (Icon.penWidth Icon.init) = true
      /\ returned c = false
      /\ Icon.penWidth (after c) = PyFloat.inf
      /\ _pen (after c) = _pen Icon.init
      /\ update_calls (after c) = update_calls Icon.init).
Proof. split; repeat split; reflexivity. Qed.

(** X17. An assignment that changes a property requests exactly one
    repaint when it returns and none when it raises: [update()] is called
    once more for [brush], [penStyle] and [penColor] assigned a value
    different from the current one and for [rotation] on every assignment;
    for [penWidth] assigned a value at least zero that differs ([!=]) from
    the stored one, once more if [QPen.setWidth] took the call and not at
    all if it raised. *)
Theorem assignment_requests_one_repaint :
  (forall v self,
      v <> Icon.brush self ->
      update_calls (Icon.brush_setter v self) = S (update_calls self))
  /\ (forall v self,
        v <> Icon.penStyle self ->
        update_calls (Icon.penStyle_setter v self) = S (update_calls self))
  /\ (forall v self,
        v <> Icon.penColor self ->
        update_calls (Icon.penColor_setter v self) = S (update_calls self))
  /\ (forall v self,
        update_calls (Icon.rotation_setter v self) = S (update_calls self))
  /\ (forall as_int v self,
        nonnegative v ->
        PyFloat.neqb v (Icon.penWidth self) = true ->
        let c := Icon.penWidth_setter as_int v self in
        (as_int v <> None ->
         returned c = true
         /\ update_calls (after c) = S (update_calls self))
        /\ (as_int v = None ->
            returned c = false
            /\ update_calls (after c) = update_calls self)).
Proof.
  split; [|split; [|split; [|split]]].
  - intros v self Hv. unfold Icon.brush_setter. unfold Icon.brush in Hv.
    rewrite (eqb_false_of_neq QBrush_eqb _ _ (QBrush_eqb_eq _ _) Hv).
    reflexivity.
  - intros v self Hv. unfold Icon.penStyle_setter.
    unfold Icon.penStyle in Hv.
    rewrite (eqb_false_of_neq Qt.PenStyle_eqb _ _ (PenStyle_eqb_eq _ _) Hv).
    reflexivity.
  - intros v self Hv. unfold Icon.penColor_setter.
    unfold Icon.penColor in Hv.
    rewrite (eqb_false_of_neq QColor_eqb _ _ (QColor_eqb_eq _ _) Hv).
    reflexivity.
  - intros v self. reflexivity.
  - intros as_int v self Hv Hne. unfold Icon.penWidth_setter.
    rewrite (leb_zero_not_ltb v Hv).
    unfold Icon.penWidth in Hne. rewrite Hne. simpl.
    destruct (as_int v); simpl; split; intros H;
      try (now contradiction H); try discriminate H; split; reflexivity.
Qed.

Lemma assignment_requests_one_repaint_witness :
  update_calls
    (Icon.brush_setter (mkQBrush (QColor_rgb 255 0 0) Qt.SolidPattern)
       Icon.init) = 1%nat
  /\ update_calls (Icon.penStyle_setter Qt.DotLine Icon.init) = 1%nat
  /\ update_calls (Icon.penColor_setter (QColor_rgb 0 128 0) Icon.init)
     = 1%nat
  /\ update_calls
       (after (Icon.penWidth_setter converting_binding two Icon.init)) = 1%nat
  /\ update_calls
       (after (Icon.penWidth_setter strict_binding two Icon.init)) = 0%nat.
Proof.
  destruct assignment_requests_one_repaint
    as (Hbrush & Hstyle & Hcolor & _ & Hwidth).
  split; [|split; [|split; [|split]]].
  - apply (Hbrush (mkQBrush (QColor_rgb 255 0 0) Qt.SolidPattern) Icon.init).
    discriminate.
  - apply (Hstyle Qt.DotLine Icon.init). discriminate.
  - apply (Hcolor (QColor_rgb 0 128 0) Icon.init). discriminate.
  - destruct (Hwidth converting_binding two Icon.init eq_refl eq_refl)
      as (Hret & _).
    apply Hret. discriminate.
  - destruct (Hwidth strict_binding two Icon.init eq_refl eq_refl)
      as (_ & Hraise).
    apply Hraise. reflexivity.
Defined.

(** ** [BaseSymbolIcon]: the width the pen carries *)

Lemma QPen_setWidth_width (n : Z) (p : QPen) :
  pen_width (QPen_setWidth n p)
  = if (n <? 0) || (QPen_max_width <=? n) then pen_width p else IntWidth n.
Proof.
  unfold QPen_setWidth.
  now destruct ((n <? 0) || (QPen_max_width <=? n)).
Qed.

Lemma QPen_setWidth_keeps (n : Z) (p : QPen) :
  pen_style (QPen_setWidth n p) = pen_style p
  /\ pen_color (QPen_setWidth n p) = pen_color p
  /\ pen_cosmetic (QPen_setWidth n p) = pen_cosmetic p.
Proof.
  unfold QPen_setWidth.
  destruct ((n <? 0) || (QPen_max_width <=? n)); repeat split.
Qed.

Lemma QPen_takes_spec (n : Z) :
  (n <? 0) || (QPen_max_width <=? n) = false <-> QPen_takes n.
Proof.
  unfold QPen_takes. rewrite orb_false_iff, Z.ltb_ge, Z.leb_gt. tauto.
Qed.

(** Only the constructor hands the pen a float: the width a pen carries is
    the constructor's 1.0 or an int. *)
Lemma exec_pen_width_source
  (as_int : float -> option Z)
  (draw_icon : BaseSymbolIcon -> QPainter -> QPainter)
  (op : IconOp) (self : BaseSymbolIcon) :
  set_by_constructor_or_setWidth (pen_width (_pen self)) ->
  set_by_constructor_or_setWidth
    (pen_width (_pen (exec as_int draw_icon op self))).
Proof.
  intros Hinv. destruct op as [b|s|c|w|a|ev]; simpl.
  - unfold Icon.brush_setter.
    now destruct (negb (QBrush_eqb b (_brush self))).
  - unfold Icon.penStyle_setter.
    now destruct (negb (Qt.PenStyle_eqb s (_pen_style self))).
  - unfold Icon.penColor_setter.
    now destruct (negb (QColor_eqb c (_pen_color self))).
  - unfold Icon.penWidth_setter.
    destruct (PyFloat.ltb w PyFloat.zero); [exact Hinv|].
    destruct (PyFloat.neqb w (_pen_width self)); [|exact Hinv].
    simpl. destruct (as_int w) as [n|]; simpl; [|exact Hinv].
    rewrite QPen_setWidth_width.
    destruct ((n <? 0) || (QPen_max_width <=? n)); [exact Hinv|].
    right. now exists n.
  - exact Hinv.
  - exact Hinv.
Qed.

Lemma run_pen_width_source
  (as_int : float -> option Z)
  (draw_icon : BaseSymbolIcon -> QPainter -> QPainter)
  (ops : list IconOp) :
  set_by_constructor_or_setWidth
    (pen_width (_pen (run as_int draw_icon ops))).
Proof.
  unfold run.
  assert (Hinit : set_by_constructor_or_setWidth (pen_width (_pen Icon.init)))
    by (left; reflexivity).
  revert Hinit. generalize Icon.init.
  induction ops as [|op ops IH]; intros self Hself; simpl.
  - exact Hself.
  - apply IH. now apply exec_pen_width_source.
Qed.

Lemma set_by_constructor_or_setWidth_integral (pw : QPenWidth) :
  set_by_constructor_or_setWidth pw -> QPenWidth_integral pw = true.
Proof. intros [->|[n ->]]; reflexivity. Qed.

(** C9. The constructor gives the pen its width through [setWidthF]; the
    [penWidth] setter gives it through the integer [setWidth], so the pen
    of a widget that was constructed and then used in any way carries the
    constructor's 1.0 or an int.  After [penWidth] is set to a value [w]
    that is at least zero the getter returns [w]; when the assignment
    changed the stored width and the binding handed [setWidth] an int, the
    pen carries that int if Qt takes it (from 0 up to, not including,
    2^15) and the width it had otherwise; and for every [w] that is not a
    whole number the width the pen carries is not the width the property
    reports. *)
Theorem penWidth_pen_carries_integer
  (as_int : float -> option Z)
  (draw_icon : BaseSymbolIcon -> QPainter -> QPainter)
  (ops : list IconOp) (w : float) :
  nonnegative w ->
  let self := run as_int draw_icon ops in
  let self' := after (Icon.penWidth_setter as_int w self) in
  pen_width (_pen Icon.init) = FloatWidth PyFloat.one
  /\ PyFloat.eqb (Icon.penWidth self') w = true
  /\ (forall n,
        PyFloat.neqb w (Icon.penWidth self) = true ->
        as_int w = Some n ->
        pen_width (_pen self')
        = if (n <? 0) || (QPen_max_width <=? n)
          then pen_width (_pen self)
          else IntWidth n)
  /\ set_by_constructor_or_setWidth (pen_width (_pen self'))
  /\ (PyFloat.is_integer w = false ->
      QPenWidth_is (pen_width (_pen self')) (Icon.penWidth self') = false).
Proof.
  intros Hw self self'.
  assert (Hread : PyFloat.eqb (Icon.penWidth self') w = true)
    by apply (penWidth_setter_reads_back as_int w self Hw).
  assert (Hsrc : set_by_constructor_or_setWidth (pen_width (_pen self'))).
  { change self' with (exec as_int draw_icon (SetPenWidth w) self).
    apply exec_pen_width_source. apply run_pen_width_source. }
  split; [reflexivity|]. split; [exact Hread|]. split; [|split].
  - intros n Hne Hn. subst self'. unfold Icon.penWidth_setter.
    rewrite (leb_zero_not_ltb w Hw).
    unfold Icon.penWidth in Hne. rewrite Hne. simpl. rewrite Hn.
    simpl. apply QPen_setWidth_width.
  - exact Hsrc.
  - intros Hfrac. apply QPenWidth_integral_differs.
    + now apply set_by_constructor_or_setWidth_integral.
    + rewrite (eqb_is_integer _ _ Hread). exact Hfrac.
Qed.

Lemma penWidth_pen_carries_integer_witness :
  let self' :=
    after (Icon.penWidth_setter converting_binding one_and_a_half Icon.init) in
  Icon.penWidth self' = one_and_a_half
  /\ pen_width (_pen self') = IntWidth 1
  /\ QPenWidth_is (pen_width (_pen self')) (Icon.penWidth self') = false.
Proof.
  destruct (penWidth_pen_carries_integer converting_binding Icon.draw_icon []
              one_and_a_half eq_refl)
    as (_ & Hread & Hset & _ & Hdiff).
  split; [|split].
  - destruct (eqb_true_inv _ _ Hread) as [(s & t & _ & Hzero)|[Heq _]];
      [discriminate Hzero|exact Heq].
  - apply (Hset 1); reflexivity.
  - apply Hdiff. reflexivity.
Defined.

(** The width Qt ignores: 40000.5 on a converting binding is stored by the
    property while the pen keeps the constructor's 1.0. *)
Example penWidth_out_of_range :
  let w := div (of_int 80001) two in
  let self' := after (Icon.penWidth_setter converting_binding w Icon.init) in
  converting_binding w = Some 40000
  /\ Icon.penWidth self' = w
  /\ pen_width (_pen self') = FloatWidth PyFloat.one
  /\ update_calls self' = 1%nat.
Proof. repeat split; reflexivity. Qed.

(** ** [BaseSymbolIcon]: painting *)

(** C4. On every paint event the painter receives, after the widget
    background, the six transform calls in this order (to the centre of
    the rectangle, the rotation, back from the centre, half the pen width,
    the scale by width and height less the pen width, the origin of the
    rectangle), then the brush and the pen held by the widget, and
    [draw_icon] is called on the painter in that state; the widget itself is
    left as it was. *)
Theorem paintEvent_order
  (draw_icon : BaseSymbolIcon -> QPainter -> QPainter)
  (self : BaseSymbolIcon) (event : QPaintEvent) :
  let x := rect_x (rect event) in
  let y := rect_y (rect event) in
  let w := rect_width (rect event) in
  let h := rect_height (rect event) in
  Icon.paintEvent draw_icon self event =
  (self,
   draw_icon self
     ([setClipping true; drawPrimitive_PE_Widget; setRenderHint_Antialiasing]
      ++ [translate (div (of_int w) two) (div (of_int h) two);
          rotate (Icon.rotation self);
          translate (div (of_int (- w)) two) (div (of_int (- h)) two);
          translate (div (Icon.penWidth self) two)
                    (div (Icon.penWidth self) two);
          scale (sub (of_int w) (Icon.penWidth self))
                (sub (of_int h) (Icon.penWidth self));
          translate (of_int x) (of_int y)]
      ++ [setBrush (Icon.brush self); setPen (_pen self)])).
Proof. reflexivity. Qed.

Example paintEvent_200_by_100 :
  snd (Icon.paintEvent Icon.draw_icon Icon.init
         (mkQPaintEvent (mkQRect 0 0 200 100)))
  = [setClipping true; drawPrimitive_PE_Widget; setRenderHint_Antialiasing;
     translate (of_int 100) (of_int 50);
     rotate PyFloat.zero;
     translate (of_int (-100)) (of_int (-50));
     translate (div PyFloat.one two) (div PyFloat.one two);
     scale (of_int 199) (of_int 99);
     translate PyFloat.zero PyFloat.zero;
     setBrush (mkQBrush (QColor_rgb 0 255 0) Qt.SolidPattern);
     setPen (mkQPen Qt.SolidLine true (FloatWidth PyFloat.one)
               (QColor_rgb 0 0 0))].
Proof. vm_compute. reflexivity. Qed.

(** ** [PneumaticValve] and [FastShutter]: the interlock *)

Example interlock_asserted_disables_controls :
  enabled (controls_frame
             (PneumaticValve.interlock_value_changed 1
                (sample_symbol AtTop None))) = false
  /\ enabled (controls_frame
                (FastShutter.interlock_value_changed 1
                   (sample_symbol AtTop None))) = false.
Proof. split; reflexivity. Qed.

Example interlock_released_enables_controls :
  enabled (controls_frame
             (PneumaticValve.interlock_value_changed 0
                (PneumaticValve.interlock_value_changed 1
                   (sample_symbol AtTop None)))) = true.
Proof. reflexivity. Qed.

(** C1. After [interlock_value_changed(value)], of [PneumaticValve] and of
    [FastShutter], for any channel value and whatever the inherited
    callback does with it, the controls frame is enabled if and only if
    the widget is not interlocked, where the widget is interlocked as the
    inherited callback left [_interlocked]. *)
Theorem interlock_value_changed_controls
  (L I : Type) (base : SymbolBase L I) (value : Z) (self : Symbol L I) :
  let pv := PneumaticValve.interlock_value_changed value self in
  let fs := FastShutter.interlock_value_changed value self in
  (enabled (controls_frame pv) = true <->
   Py.truthy (_interlocked pv) = false)
  /\ _interlocked pv
     = _interlocked (InterlockMixin_interlock_value_changed value self)
  /\ (enabled (controls_frame fs) = true <->
      Py.truthy (_interlocked fs) = false)
  /\ _interlocked fs
     = _interlocked (InterlockMixin_interlock_value_changed value self).
Proof.
  simpl.
  split; [|split; [reflexivity|split; [|reflexivity]]];
    apply negb_true_iff.
Qed.

Lemma interlock_value_changed_controls_witness :
  enabled (controls_frame
             (PneumaticValve.interlock_value_changed 0
                (sample_symbol AtTop None))) = true
  /\ enabled (controls_frame
                (FastShutter.interlock_value_changed 0
                   (sample_symbol AtTop None))) = true.
Proof.
  destruct (interlock_value_changed_controls Placement nat counting_base 0
              (sample_symbol AtTop None))
    as (Hpv & _ & Hfs & _).
  split.
  - apply Hpv. reflexivity.
  - apply Hfs. reflexivity.
Defined.

(** ** [PneumaticValve] and [FastShutter]: the layout *)

Lemma contains_top_bottom {L : Type} `{ContentLocationEnum L} (l : L) :
  Py.contains location_eq_dec l [Top; Bottom] = true <-> l = Top \/ l = Bottom.
Proof.
  unfold Py.contains. simpl.
  destruct (location_eq_dec l Top), (location_eq_dec l Bottom); simpl;
    split; auto; try discriminate.
  intros [?|?]; contradiction.
Qed.

Example assemble_layout_at_bottom :
  open_close_btn (PneumaticValve.assemble_layout (sample_symbol AtBottom None))
  = mkButton Qt.Horizontal (100, 40) None.
Proof. reflexivity. Qed.

Example assemble_layout_hidden :
  open_close_btn (FastShutter.assemble_layout (sample_symbol Hidden None))
  = mkButton Qt.Vertical (100, 80) None.
Proof. reflexivity. Qed.

Example controlsLocation_setter_reassembles :
  open_close_btn
    (PneumaticValve.controlsLocation_setter AtTop (sample_symbol AtLeft None))
  = mkButton Qt.Horizontal (100, 40) None.
Proof. reflexivity. Qed.

(** C5. [assemble_layout], of [PneumaticValve] and of [FastShutter], lays
    the open/close button out by the [controlsLocation] the widget has
    once the inherited layout has run: when that location is [Top] or
    [Bottom] the orientation of the button is horizontal and its minimum
    size (100, 40); for every other location it is vertical with minimum
    size (100, 80).  The location itself, and all of the widget but the
    button, are as the inherited layout left them. *)
Theorem assemble_layout_button
  (L I : Type) (locations : ContentLocationEnum L) (base : SymbolBase L I)
  (self : Symbol L I) :
  let s := PCDSSymbolBase_assemble_layout self in
  let pv := PneumaticValve.assemble_layout self in
  let fs := FastShutter.assemble_layout self in
  (_controls_location s = Top \/ _controls_location s = Bottom ->
   (orientation (open_close_btn pv) = Qt.Horizontal
    /\ minimumSize (open_close_btn pv) = (100, 40))
   /\ (orientation (open_close_btn fs) = Qt.Horizontal
       /\ minimumSize (open_close_btn fs) = (100, 40)))
  /\ (_controls_location s <> Top ->
      _controls_location s <> Bottom ->
      (orientation (open_close_btn pv) = Qt.Vertical
       /\ minimumSize (open_close_btn pv) = (100, 80))
      /\ (orientation (open_close_btn fs) = Qt.Vertical
          /\ minimumSize (open_close_btn fs) = (100, 80)))
  /\ (PneumaticValve.controlsLocation pv = _controls_location s
      /\ set_open_close_btn (open_close_btn s) pv = s)
  /\ (FastShutter.controlsLocation fs = _controls_location s
      /\ set_open_close_btn (open_close_btn s) fs = s).
Proof.
  unfold PneumaticValve.assemble_layout, FastShutter.assemble_layout,
    PneumaticValve.controlsLocation, FastShutter.controlsLocation.
  pose proof (contains_top_bottom
                (_controls_location (PCDSSymbolBase_assemble_layout self)))
    as Hin.
  destruct (PCDSSymbolBase_assemble_layout self) as [il loc pre fr btn inh].
  cbn [_controls_location] in *.
  destruct (Py.contains location_eq_dec loc [Top; Bottom]).
  - assert (Htb : loc = Top \/ loc = Bottom) by now apply Hin.
    split; [|split; [|split]].
    + intros _. repeat split.
    + intros Hnt Hnb. destruct Htb; contradiction.
    + split; reflexivity.
    + split; reflexivity.
  - assert (Hno : ~ (loc = Top \/ loc = Bottom)).
    { intros Htb. apply Hin in Htb. discriminate Htb. }
    split; [|split; [|split]].
    + intros Htb. contradiction.
    + intros _ _. repeat split.
    + split; reflexivity.
    + split; reflexivity.
Qed.

Lemma assemble_layout_button_witness :
  (orientation
     (open_close_btn
        (PneumaticValve.assemble_layout (sample_symbol AtTop None)))
   = Qt.Horizontal
   /\ minimumSize
        (open_close_btn
           (PneumaticValve.assemble_layout (sample_symbol AtTop None)))
      = (100, 40))
  /\ (orientation
        (open_close_btn
           (FastShutter.assemble_layout (sample_symbol AtLeft None)))
      = Qt.Vertical
      /\ minimumSize
           (open_close_btn
              (FastShutter.assemble_layout (sample_symbol AtLeft None)))
         = (100, 80)).
Proof.
  split.
  - destruct (assemble_layout_button Placement nat Placement_enum
                counting_base (sample_symbol AtTop None))
      as (Hrow & _).
    apply Hrow. left. reflexivity.
  - destruct (assemble_layout_button Placement nat Placement_enum
                counting_base (sample_symbol AtLeft None))
      as (_ & Hcolumn & _).
    apply Hcolumn; discriminate.
Defined.

(** ** [PneumaticValve] and [FastShutter]: the channels *)

Lemma set_channel_address (address : string) (b : PyDMEnumButton) :
  channel (set_channel (Some address) b) = Some address.
Proof.
  unfold set_channel.
  destruct (channel b) as [old|] eqn:Hold; simpl; [|reflexivity].
  destruct (String.eqb old address) eqn:E; simpl; [|reflexivity].
  apply String.eqb_eq in E. now rewrite Hold, E.
Qed.

Lemma set_channel_None (b : PyDMEnumButton) :
  channel (set_channel None b)
  = match channel b with
    | Some _ => Some "None"%string
    | None => None
    end.
Proof.
  unfold set_channel. destruct (channel b) as [old|] eqn:Hold; simpl.
  - reflexivity.
  - exact Hold.
Qed.

Lemma set_channel_keeps_layout (value : option string) (b : PyDMEnumButton) :
  orientation (set_channel value b) = orientation b
  /\ minimumSize (set_channel value b) = minimumSize b.
Proof.
  unfold set_channel.
  destruct (PyDM_differs (channel b) value); split; reflexivity.
Qed.

Example create_channels_with_prefix :
  channel (open_close_btn
             (PneumaticValve.create_channels
                (sample_symbol AtTop (Some "VGC:01"%string))))
  = Some "VGC:01:OPN_SW"%string.
Proof. reflexivity. Qed.

Example create_channels_without_prefix :
  channel (open_close_btn
             (PneumaticValve.create_channels (sample_symbol AtTop None)))
  = None
  /\ channel (open_close_btn
                (PneumaticValve.create_channels
                   (sample_symbol AtTop (Some ""%string))))
     = None.
Proof. split; reflexivity. Qed.

Example destroy_channels_without_channel :
  channel (open_close_btn
             (PneumaticValve.destroy_channels (sample_symbol AtTop None)))
  = None.
Proof. reflexivity. Qed.

(** C6, where the code departs from it.  [destroy_channels] assigns
    [None] to the channel of the open/close button, and the setter stores
    [str(None)]: on a widget whose button has a channel once the inherited
    method has run, as it has after [create_channels] with a prefix, the
    channel of the button is afterwards the string "None", not [None].
    Only a button that had no channel is left with [None]. *)
Theorem destroy_channels_stores_None_string
  (L I : Type) (base : SymbolBase L I) (self : Symbol L I) :
  let before := channel (open_close_btn (PCDSSymbolBase_destroy_channels self))
  in
  (forall address,
      before = Some address ->
      channel (open_close_btn (PneumaticValve.destroy_channels self))
      = Some "None"%string)
  /\ (before = None ->
      channel (open_close_btn (PneumaticValve.destroy_channels self)) = None).
Proof.
  unfold PneumaticValve.destroy_channels. cbn [open_close_btn set_open_close_btn].
  split.
  - intros address H. rewrite set_channel_None, H. reflexivity.
  - intros H. rewrite set_channel_None, H. reflexivity.
Qed.

Lemma destroy_channels_stores_None_string_witness :
  channel
    (open_close_btn
       (PneumaticValve.create_channels
          (sample_symbol AtTop (Some "VGC:01"%string))))
  = Some "VGC:01:OPN_SW"%string
  /\ channel
       (open_close_btn
          (PneumaticValve.destroy_channels
             (PneumaticValve.create_channels
                (sample_symbol AtTop (Some "VGC:01"%string)))))
     = Some "None"%string.
Proof.
  split; [reflexivity|].
  destruct (destroy_channels_stores_None_string Placement nat counting_base
              (PneumaticValve.create_channels
                 (sample_symbol AtTop (Some "VGC:01"%string))))
    as (Hset & _).
  apply (Hset "VGC:01:OPN_SW"%string). reflexivity.
Defined.

(** X18. [PneumaticValve] wires its controls by suffix: the interlock
    channel uses ":OPN_OK", the error channel ":STATE", the open and close
    state channels ":OPN_DI" and ":CLS_DI", and these are the suffixes the
    constructor hands on.  [create_channels], of either class, gives the
    open/close button the channel made of the channels prefix the widget
    has once the inherited method has run, followed by ":OPN_SW", whenever
    that prefix is a non-empty string, and leaves the prefix as it is. *)
Theorem create_channels_sets_prefixed_channel :
  PneumaticValve._interlock_suffix = ":OPN_OK"%string
  /\ PneumaticValve._error_suffix = ":STATE"%string
  /\ PneumaticValve._open_state_suffix = ":OPN_DI"%string
  /\ PneumaticValve._close_state_suffix = ":CLS_DI"%string
  /\ PneumaticValve.init_kwargs
     = mkKwargs ":OPN_OK" ":STATE" ":OPN_DI" ":CLS_DI"
  /\ (forall (L I : Type) (base : SymbolBase L I) (self : Symbol L I)
        (prefix : string),
        _channels_prefix (PCDSSymbolBase_create_channels self) = Some prefix ->
        prefix <> ""%string ->
        (channel (open_close_btn (PneumaticValve.create_channels self))
         = Some (prefix ++ ":OPN_SW")%string
         /\ _channels_prefix (PneumaticValve.create_channels self)
            = Some prefix)
        /\ (channel (open_close_btn (FastShutter.create_channels self))
            = Some (prefix ++ ":OPN_SW")%string
            /\ _channels_prefix (FastShutter.create_channels self)
               = Some prefix)).
Proof.
  split; [reflexivity|]. split; [reflexivity|]. split; [reflexivity|].
  split; [reflexivity|]. split; [reflexivity|].
  intros L I base self prefix.
  unfold PneumaticValve.create_channels, FastShutter.create_channels.
  destruct (PCDSSymbolBase_create_channels self) as [il loc pre fr btn inh].
  cbn [_channels_prefix]. intros -> Hne.
  destruct prefix as [|a p]; [now contradiction Hne|].
  cbn [Py.str_truthy open_close_btn set_open_close_btn _channels_prefix].
  unfold Py.format2. rewrite set_channel_address.
  repeat split.
Qed.

Lemma create_channels_sets_prefixed_channel_witness :
  channel (open_close_btn
             (PneumaticValve.create_channels
                (sample_symbol AtTop (Some "VGC:01"%string))))
  = Some "VGC:01:OPN_SW"%string
  /\ channel (open_close_btn
                (FastShutter.create_channels
                   (sample_symbol AtLeft (Some "FS:01"%string))))
     = Some "FS:01:OPN_SW"%string.
Proof.
  destruct create_channels_sets_prefixed_channel
    as (_ & _ & _ & _ & _ & Hcreate).
  split.
  - destruct (Hcreate Placement nat counting_base
                (sample_symbol AtTop (Some "VGC:01"%string)) "VGC:01"%string)
      as ((H & _) & _); [reflexivity|discriminate|exact H].
  - destruct (Hcreate Placement nat counting_base
                (sample_symbol AtLeft (Some "FS:01"%string)) "FS:01"%string)
      as (_ & (H & _)); [reflexivity|discriminate|exact H].
Defined.

(** C10. The error channel of [FastShutter] uses the suffix ":ERROR": not
    ":STATE" as [PneumaticValve] does, and not one of the suffixes the
    specification lists; its other suffixes ":OPN_OK", ":OPN_DI" and
    ":CLS_DI" are those of [PneumaticValve], and so is the ":OPN_SW"
    channel that [create_channels] gives the open/close button. *)
Theorem FastShutter_error_suffix :
  FastShutter._error_suffix = ":ERROR"%string
  /\ PneumaticValve._error_suffix = ":STATE"%string
  /\ FastShutter._error_suffix <> PneumaticValve._error_suffix
  /\ ~ In FastShutter._error_suffix suffix_conventions
  /\ error_suffix FastShutter.init_kwargs = ":ERROR"%string
  /\ (FastShutter._interlock_suffix = ":OPN_OK"%string
      /\ FastShutter._interlock_suffix = PneumaticValve._interlock_suffix)
  /\ (FastShutter._open_state_suffix = ":OPN_DI"%string
      /\ FastShutter._open_state_suffix = PneumaticValve._open_state_suffix)
  /\ (FastShutter._close_state_suffix = ":CLS_DI"%string
      /\ FastShutter._close_state_suffix = PneumaticValve._close_state_suffix)
  /\ (forall (L I : Type) (base : SymbolBase L I) (self : Symbol L I),
        FastShutter.create_channels self = PneumaticValve.create_channels self)
  /\ channel (open_close_btn
                (FastShutter.create_channels
                   (sample_symbol AtTop (Some "FS:01"%string))))
     = Some "FS:01:OPN_SW"%string.
Proof.
  split; [reflexivity|]. split; [reflexivity|]. split; [discriminate|].
  split.
  { simpl. intros [H|[H|[H|[H|[H|[]]]]]]; discriminate H. }
  split; [reflexivity|].
  repeat split; reflexivity.
Qed.

(** ** [BaseSymbolIcon]: what the operations keep *)

Lemma run_from_app
  (as_int : float -> option Z)
  (draw_icon : BaseSymbolIcon -> QPainter -> QPainter)
  (self : BaseSymbolIcon) (l1 l2 : list IconOp) :
  run_from as_int draw_icon self (l1 ++ l2)
  = run_from as_int draw_icon (run_from as_int draw_icon self l1) l2.
Proof. unfold run_from. apply fold_left_app. Qed.

Lemma run_from_invariant
  (as_int : float -> option Z)
  (draw_icon : BaseSymbolIcon -> QPainter -> QPainter)
  (P : BaseSymbolIcon -> Prop) :
  (forall op self, P self -> P (exec as_int draw_icon op self)) ->
  forall ops self, P self -> P (run_from as_int draw_icon self ops).
Proof.
  intros Hstep ops. induction ops as [|op ops IH]; intros self Hself; simpl.
  - exact Hself.
  - apply IH, Hstep, Hself.
Qed.

(** A condition that has no branch inside: the innermost one. *)
Ltac plain c :=
  lazymatch c with
  | context [if _ then _ else _] => fail
  | context [match _ with Some _ => _ | None => _ end] => fail
  | _ => idtac
  end.

Ltac case_setters :=
  unfold Icon.brush_setter, Icon.penStyle_setter, Icon.penColor_setter,
    Icon.penWidth_setter, Icon.rotation_setter, Icon.paintEvent;
  repeat match goal with
         | |- context [if ?c then _ else _] => destruct c eqn:?; simpl
         | |- context [match ?a ?w with Some _ => _ | None => _ end] =>
             destruct (a w) eqn:?; simpl
         end.

(** X1. In every state the widget reaches from its constructor, the style
    and the colour it caches are the style and the colour of its pen, and
    the pen is cosmetic. *)
Theorem pen_follows_style_and_color
  (as_int : float -> option Z)
  (draw_icon : BaseSymbolIcon -> QPainter -> QPainter)
  (ops : list IconOp) :
  let self := run as_int draw_icon ops in
  pen_style (_pen self) = Icon.penStyle self
  /\ pen_color (_pen self) = Icon.penColor self
  /\ pen_cosmetic (_pen self) = true.
Proof.
  change (pen_in_sync (run_from as_int draw_icon Icon.init ops)).
  apply run_from_invariant; [|repeat split].
  intros op self (Hs & Hc & Hk).
  destruct op as [b|s|c|w|a|ev]; unfold pen_in_sync; simpl;
    case_setters;
    repeat match goal with
           | |- context [QPen_setWidth ?n ?p] =>
               destruct (QPen_setWidth_keeps n p) as (-> & -> & ->)
           end;
    repeat split; assumption.
Qed.

(** X2. No operation touches what the constructor recorded as original:
    after any sequence of operations the original brush is still [None],
    the original pen style and colour are the solid line and black, and
    the object name is "icon". *)
Theorem originals_never_change
  (as_int : float -> option Z)
  (draw_icon : BaseSymbolIcon -> QPainter -> QPainter)
  (ops : list IconOp) :
  let self := run as_int draw_icon ops in
  _original_brush self = None
  /\ _original_pen_style self = Qt.SolidLine
  /\ _original_pen_color self = QColor_rgb 0 0 0
  /\ objectName self = "icon"%string.
Proof.
  change ((fun self =>
             _original_brush self = None
             /\ _original_pen_style self = Qt.SolidLine
             /\ _original_pen_color self = QColor_rgb 0 0 0
             /\ objectName self = "icon"%string)
            (run_from as_int draw_icon Icon.init ops)).
  apply run_from_invariant; [|repeat split].
  intros op self (Hb & Hs & Hc & Hn).
  destruct op as [b|s|c|w|a|ev]; simpl; case_setters;
    repeat split; assumption.
Qed.

(** X3. An operation leaves every property it does not assign as it was:
    each of the five getters returns what it returned before, unless the
    operation is the assignment of that very property; a paint event
    changes none. *)
Theorem exec_leaves_other_properties
  (as_int : float -> option Z)
  (draw_icon : BaseSymbolIcon -> QPainter -> QPainter)
  (op : IconOp) (self : BaseSymbolIcon) :
  let self' := exec as_int draw_icon op self in
  (assigned op <> Some P_brush -> Icon.brush self' = Icon.brush self)
  /\ (assigned op <> Some P_penStyle ->
      Icon.penStyle self' = Icon.penStyle self)
  /\ (assigned op <> Some P_penColor ->
      Icon.penColor self' = Icon.penColor self)
  /\ (assigned op <> Some P_penWidth ->
      Icon.penWidth self' = Icon.penWidth self)
  /\ (assigned op <> Some P_rotation ->
      Icon.rotation self' = Icon.rotation self).
Proof.
  destruct op as [b|s|c|w|a|ev]; simpl;
    (split; [|split; [|split; [|split]]]); intros Hop;
    try (now contradiction Hop);
    case_setters; reflexivity.
Qed.

Lemma exec_leaves_other_properties_witness :
  Icon.brush
    (exec to_int Icon.draw_icon (SetPenColor (QColor_rgb 255 0 0)) Icon.init)
  = Icon.brush Icon.init
  /\ Icon.penWidth
       (exec to_int Icon.draw_icon (SetRotation two) Icon.init)
     = Icon.penWidth Icon.init.
Proof.
  split.
  - destruct (exec_leaves_other_properties to_int Icon.draw_icon
                (SetPenColor (QColor_rgb 255 0 0)) Icon.init) as (H & _).
    apply H. discriminate.
  - destruct (exec_leaves_other_properties to_int Icon.draw_icon
                (SetRotation two) Icon.init) as (_ & _ & _ & H & _).
    apply H. discriminate.
Defined.

(** Reduction of the attribute updates and projections alone, leaving
    the comparisons as they stand. *)
Ltac icon_reduce :=
  cbn [exec after fst
       Icon.update Icon.set_brush Icon.set_pen_style Icon.set_pen
       Icon.set_pen_width Icon.set_pen_color Icon.set_rotation
       QPen_setStyle QPen_setColor QPen_setWidth
       _brush _original_brush _rotation _pen_style _pen _pen_width _pen_color
       _original_pen_style _original_pen_color objectName update_calls
       pen_style pen_cosmetic pen_width pen_color].

(** X4. Assignments to different properties commute: two operations that
    do not assign the same property leave the same widget, whichever runs
    first (same attributes, same pen, same number of repaint requests). *)
Theorem exec_commute
  (as_int : float -> option Z)
  (draw_icon : BaseSymbolIcon -> QPainter -> QPainter)
  (op1 op2 : IconOp) (self : BaseSymbolIcon) :
  assigned op1 <> assigned op2 ->
  exec as_int draw_icon op1 (exec as_int draw_icon op2 self)
  = exec as_int draw_icon op2 (exec as_int draw_icon op1 self).
Proof.
  intros Hne.
  destruct op1 as [b1|s1|c1|w1|a1|e1], op2 as [b2|s2|c2|w2|a2|e2];
    try (now contradiction Hne);
    unfold exec, Icon.brush_setter, Icon.penStyle_setter,
      Icon.penColor_setter, Icon.penWidth_setter, Icon.rotation_setter,
      Icon.paintEvent;
    icon_reduce;
    repeat match goal with
           | H : ?c = _ |- context [?c] => rewrite H; icon_reduce
           | |- context [if ?c then _ else _] =>
               plain c; destruct c eqn:?; icon_reduce
           | |- context [as_int ?w] =>
               plain w; destruct (as_int w) eqn:?; icon_reduce
           | |- context [QPen_setWidth ?n _] =>
               unfold QPen_setWidth;
               destruct ((n <? 0) || (QPen_max_width <=? n)); icon_reduce
           end;
    reflexivity.
Qed.

Lemma exec_commute_witness :
  exec to_int Icon.draw_icon (SetPenStyle Qt.DotLine)
    (exec to_int Icon.draw_icon (SetPenWidth two) Icon.init)
  = exec to_int Icon.draw_icon (SetPenWidth two)
      (exec to_int Icon.draw_icon (SetPenStyle Qt.DotLine) Icon.init).
Proof.
  apply (exec_commute to_int Icon.draw_icon (SetPenStyle Qt.DotLine)
           (SetPenWidth two) Icon.init).
  discriminate.
Defined.

Lemma run_from_keeps
  (as_int : float -> option Z)
  (draw_icon : BaseSymbolIcon -> QPainter -> QPainter)
  {A : Type} (get : BaseSymbolIcon -> A) (p : IconProperty) :
  (forall op self,
      assigned op <> Some p ->
      get (exec as_int draw_icon op self) = get self) ->
  forall ops self,
    Forall (fun op => assigned op <> Some p) ops ->
    get (run_from as_int draw_icon self ops) = get self.
Proof.
  intros Hframe ops. induction ops as [|op ops IH]; intros self Hops; simpl.
  - reflexivity.
  - inversion Hops as [|? ? Hop Hrest]; subst.
    rewrite (IH _ Hrest). now apply Hframe.
Qed.

(** X5. A property keeps the value last assigned to it while other
    properties are assigned and the widget is painted: after an assignment
    followed by any operations that do not assign the same property, the
    getter returns the assigned value (for [penWidth], a value at least
    zero, equal to the one read back in the sense of [==]). *)
Theorem assigned_value_persists
  (as_int : float -> option Z)
  (draw_icon : BaseSymbolIcon -> QPainter -> QPainter)
  (self : BaseSymbolIcon) (later : list IconOp) :
  (forall b,
      Forall (fun op => assigned op <> Some P_brush) later ->
      Icon.brush (run_from as_int draw_icon self (SetBrush b :: later)) = b)
  /\ (forall s,
        Forall (fun op => assigned op <> Some P_penStyle) later ->
        Icon.penStyle (run_from as_int draw_icon self (SetPenStyle s :: later))
        = s)
  /\ (forall c,
        Forall (fun op => assigned op <> Some P_penColor) later ->
        Icon.penColor (run_from as_int draw_icon self (SetPenColor c :: later))
        = c)
  /\ (forall a,
        Forall (fun op => assigned op <> Some P_rotation) later ->
        Icon.rotation (run_from as_int draw_icon self (SetRotation a :: later))
        = a)
  /\ (forall w,
        nonnegative w ->
        Forall (fun op => assigned op <> Some P_penWidth) later ->
        PyFloat.eqb
          (Icon.penWidth
             (run_from as_int draw_icon self (SetPenWidth w :: later))) w
        = true).
Proof.
  split; [|split; [|split; [|split]]].
  - intros b Hlater. simpl.
    rewrite (run_from_keeps as_int draw_icon Icon.brush P_brush);
      [| intros op s; apply exec_leaves_other_properties | exact Hlater].
    unfold Icon.brush, Icon.brush_setter.
    destruct (QBrush_eqb b (_brush self)) eqn:E; simpl; [|reflexivity].
    symmetry. now apply QBrush_eqb_eq.
  - intros s Hlater. simpl.
    rewrite (run_from_keeps as_int draw_icon Icon.penStyle P_penStyle);
      [| intros op s0; apply exec_leaves_other_properties | exact Hlater].
    unfold Icon.penStyle, Icon.penStyle_setter.
    destruct (Qt.PenStyle_eqb s (_pen_style self)) eqn:E; simpl;
      [|reflexivity].
    symmetry. now apply PenStyle_eqb_eq.
  - intros c Hlater. simpl.
    rewrite (run_from_keeps as_int draw_icon Icon.penColor P_penColor);
      [| intros op s0; apply exec_leaves_other_properties | exact Hlater].
    unfold Icon.penColor, Icon.penColor_setter.
    destruct (QColor_eqb c (_pen_color self)) eqn:E; simpl; [|reflexivity].
    symmetry. now apply QColor_eqb_eq.
  - intros a Hlater. simpl.
    rewrite (run_from_keeps as_int draw_icon Icon.rotation P_rotation);
      [| intros op s0; apply exec_leaves_other_properties | exact Hlater].
    reflexivity.
  - intros w Hw Hlater. simpl.
    rewrite (run_from_keeps as_int draw_icon Icon.penWidth P_penWidth);
      [| intros op s0; apply exec_leaves_other_properties | exact Hlater].
    now apply penWidth_setter_reads_back.
Qed.

Lemma assigned_value_persists_witness :
  Icon.penColor
    (run_from to_int Icon.draw_icon Icon.init
       [SetPenColor (QColor_rgb 255 0 0); SetPenWidth two;
        Paint (mkQPaintEvent (mkQRect 0 0 32 32)); SetPenStyle Qt.DashLine])
  = QColor_rgb 255 0 0.
Proof.
  destruct (assigned_value_persists to_int Icon.draw_icon Icon.init
              [SetPenWidth two; Paint (mkQPaintEvent (mkQRect 0 0 32 32));
               SetPenStyle Qt.DashLine])
    as (_ & _ & Hcolor & _).
  apply Hcolor.
  repeat constructor; discriminate.
Defined.

(** ** [BaseSymbolIcon]: assignments that change nothing *)

Lemma QBrush_eqb_refl (b : QBrush) : QBrush_eqb b b = true.
Proof. now apply QBrush_eqb_eq. Qed.

Lemma PenStyle_eqb_refl (s : Qt.PenStyle) : Qt.PenStyle_eqb s s = true.
Proof. now apply PenStyle_eqb_eq. Qed.

Lemma QColor_eqb_refl (c : QColor) : QColor_eqb c c = true.
Proof. now apply QColor_eqb_eq. Qed.

(** X6. Assigning a property a value equal to the one it holds changes
    nothing at all and requests no repaint: for [brush], [penStyle] and
    [penColor] with the value the getter returns, for [penWidth] with any
    value [==] to the stored one (so [-0.0] over [0.0] too), and the
    assignment returns. *)
Theorem equal_value_changes_nothing :
  (forall self, Icon.brush_setter (Icon.brush self) self = self)
  /\ (forall self, Icon.penStyle_setter (Icon.penStyle self) self = self)
  /\ (forall self, Icon.penColor_setter (Icon.penColor self) self = self)
  /\ (forall as_int w self,
        PyFloat.eqb w (Icon.penWidth self) = true ->
        Icon.penWidth_setter as_int w self = Returns self).
Proof.
  split; [|split; [|split]].
  - intros self. unfold Icon.brush_setter, Icon.brush.
    now rewrite QBrush_eqb_refl.
  - intros self. unfold Icon.penStyle_setter, Icon.penStyle.
    now rewrite PenStyle_eqb_refl.
  - intros self. unfold Icon.penColor_setter, Icon.penColor.
    now rewrite QColor_eqb_refl.
  - intros as_int w self Heq.
    unfold Icon.penWidth_setter, PyFloat.neqb.
    unfold Icon.penWidth, PyFloat.eqb in Heq. rewrite Heq. simpl.
    now destruct (PyFloat.ltb w PyFloat.zero).
Qed.

Lemma equal_value_changes_nothing_witness :
  let self := after (Icon.penWidth_setter to_int PyFloat.zero Icon.init) in
  Icon.penWidth_setter to_int PyFloat.neg_zero self = Returns self.
Proof.
  destruct equal_value_changes_nothing as (_ & _ & _ & Hwidth).
  apply Hwidth. reflexivity.
Defined.

(** X7. Every operation but two is idempotent: running it a second time
    right after the first leaves the widget, repaint count included, as
    the first left it.  The two are the assignment of [rotation], which
    requests a repaint every time, and the assignment of NaN to
    [penWidth]. *)
Theorem exec_idempotent
  (as_int : float -> option Z)
  (draw_icon : BaseSymbolIcon -> QPainter -> QPainter)
  (op : IconOp) (self : BaseSymbolIcon) :
  (forall a, op <> SetRotation a) ->
  op <> SetPenWidth PyFloat.nan ->
  exec as_int draw_icon op (exec as_int draw_icon op self)
  = exec as_int draw_icon op self.
Proof.
  intros Hrot Hnan. destruct op as [b|s|c|w|a|ev]; simpl.
  - unfold Icon.brush_setter.
    destruct (QBrush_eqb b (_brush self)) eqn:E; icon_reduce;
      cbn [negb]; [now rewrite E|].
    now rewrite QBrush_eqb_refl.
  - unfold Icon.penStyle_setter.
    destruct (Qt.PenStyle_eqb s (_pen_style self)) eqn:E; icon_reduce;
      cbn [negb]; [now rewrite E|].
    now rewrite PenStyle_eqb_refl.
  - unfold Icon.penColor_setter.
    destruct (QColor_eqb c (_pen_color self)) eqn:E; icon_reduce;
      cbn [negb]; [now rewrite E|].
    now rewrite QColor_eqb_refl.
  - assert (Hw : w <> S754_nan) by (intros ->; now apply Hnan).
    unfold Icon.penWidth_setter.
    destruct (PyFloat.ltb w PyFloat.zero) eqn:Hneg; icon_reduce;
      [reflexivity|].
    assert (Hsame : PyFloat.neqb w w = false).
    { unfold PyFloat.neqb. fold (PyFloat.eqb w w).
      now rewrite (eqb_refl w Hw). }
    destruct (PyFloat.neqb w (_pen_width self)) eqn:Hne; icon_reduce.
    + destruct (as_int w); icon_reduce; rewrite Hsame; reflexivity.
    + now rewrite Hne.
  - now contradiction (Hrot a).
  - reflexivity.
Qed.

Lemma exec_idempotent_witness :
  exec to_int Icon.draw_icon (SetPenWidth two)
    (exec to_int Icon.draw_icon (SetPenWidth two) Icon.init)
  = exec to_int Icon.draw_icon (SetPenWidth two) Icon.init.
Proof.
  apply (exec_idempotent to_int Icon.draw_icon (SetPenWidth two) Icon.init);
    discriminate.
Defined.

(** X8. NaN assigned to [penWidth] is never rejected and never taken for
    the stored width, not even for a stored NaN ([nan != nan]): it is
    stored every time and the assignment is never the silent no-op.  On a
    binding that makes no int of NaN the assignment raises every time,
    leaving all but the stored width (the pen and the count of repaint
    requests too) as it was. *)
Theorem penWidth_nan_always_stored
  (as_int : float -> option Z) (self : BaseSymbolIcon) :
  let c := Icon.penWidth_setter as_int PyFloat.nan self in
  Icon.penWidth (after c) = PyFloat.nan
  /\ c <> Returns self
  /\ (as_int PyFloat.nan = None ->
      c = Raises (Icon.set_pen_width PyFloat.nan self)).
Proof.
  unfold Icon.penWidth_setter. simpl.
  destruct (as_int PyFloat.nan); simpl; split; try reflexivity; split.
  - intros H. injection H as H.
    apply (f_equal update_calls) in H. simpl in H.
    now apply Nat.neq_succ_diag_l in H.
  - discriminate.
  - discriminate.
  - reflexivity.
Qed.

Lemma penWidth_nan_always_stored_witness :
  let self :=
    after (Icon.penWidth_setter converting_binding PyFloat.nan Icon.init) in
  Icon.penWidth_setter converting_binding PyFloat.nan self
  = Raises (Icon.set_pen_width PyFloat.nan self).
Proof.
  intros self.
  destruct (penWidth_nan_always_stored converting_binding self)
    as (_ & _ & H).
  apply H. reflexivity.
Defined.

(** ** [BaseSymbolIcon]: repaint requests *)

Lemma exec_update_calls
  (as_int : float -> option Z)
  (draw_icon : BaseSymbolIcon -> QPainter -> QPainter)
  (op : IconOp) (self : BaseSymbolIcon) :
  (update_calls self <= update_calls (exec as_int draw_icon op self))%nat
  /\ (update_calls (exec as_int draw_icon op self)
      <= update_calls self + (if is_assignment op then 1 else 0))%nat.
Proof.
  destruct op as [b|s|c|w|a|ev]; simpl; case_setters; lia.
Qed.

(** X9. Repaint requests only accumulate, at most one per assignment and
    none per paint event: after any operations the count is at least what
    it was and at most that plus the number of assignments among them. *)
Theorem repaint_requests_bounded
  (as_int : float -> option Z)
  (draw_icon : BaseSymbolIcon -> QPainter -> QPainter)
  (ops : list IconOp) (self : BaseSymbolIcon) :
  (update_calls self
   <= update_calls (run_from as_int draw_icon self ops))%nat
  /\ (update_calls (run_from as_int draw_icon self ops)
      <= update_calls self + List.length (filter is_assignment ops))%nat.
Proof.
  revert self. induction ops as [|op ops IH]; intros self; simpl.
  - lia.
  - destruct (IH (exec as_int draw_icon op self)) as [Hlo Hhi].
    destruct (exec_update_calls as_int draw_icon op self) as [Hlo1 Hhi1].
    destruct (is_assignment op); simpl in *; lia.
Qed.

(** X10. Paint events and rejected widths leave no trace: taking a paint
    event, or the assignment of a width below zero, out of a sequence of
    operations gives the same widget. *)
Theorem unobserved_operations
  (as_int : float -> option Z)
  (draw_icon : BaseSymbolIcon -> QPainter -> QPainter)
  (before later : list IconOp) :
  (forall ev,
      run as_int draw_icon (before ++ Paint ev :: later)
      = run as_int draw_icon (before ++ later))
  /\ (forall w,
        PyFloat.ltb w PyFloat.zero = true ->
        run as_int draw_icon (before ++ SetPenWidth w :: later)
        = run as_int draw_icon (before ++ later)).
Proof.
  change (run as_int draw_icon) with (run_from as_int draw_icon Icon.init).
  split.
  - intros ev. rewrite !run_from_app. reflexivity.
  - intros w Hneg. rewrite !run_from_app. simpl.
    unfold Icon.penWidth_setter. rewrite Hneg. reflexivity.
Qed.

Lemma unobserved_operations_witness :
  run to_int Icon.draw_icon
    ([SetRotation two] ++ SetPenWidth minus_one :: [SetPenStyle Qt.DotLine])
  = run to_int Icon.draw_icon ([SetRotation two] ++ [SetPenStyle Qt.DotLine]).
Proof.
  destruct (unobserved_operations to_int Icon.draw_icon [SetRotation two]
              [SetPenStyle Qt.DotLine]) as (_ & H).
  apply H. reflexivity.
Defined.

(** ** [BaseSymbolIcon]: the pen and the stored width *)

Lemma exec_pen_width_in_sync
  (as_int : float -> option Z)
  (draw_icon : BaseSymbolIcon -> QPainter -> QPainter)
  (op : IconOp) (self : BaseSymbolIcon) :
  pen_width_in_sync as_int self ->
  pen_width_in_sync as_int (exec as_int draw_icon op self).
Proof.
  intros Hinv. destruct op as [b|s|c|w|a|ev]; simpl.
  - unfold Icon.brush_setter.
    now destruct (negb (QBrush_eqb b (_brush self))).
  - unfold Icon.penStyle_setter.
    now destruct (negb (Qt.PenStyle_eqb s (_pen_style self))).
  - unfold Icon.penColor_setter.
    now destruct (negb (QColor_eqb c (_pen_color self))).
  - unfold Icon.penWidth_setter.
    destruct (PyFloat.ltb w PyFloat.zero); [exact Hinv|].
    destruct (PyFloat.neqb w (_pen_width self)); [|exact Hinv].
    icon_reduce. destruct (as_int w) as [n|] eqn:Hn; right; icon_reduce.
    + intros n' Hn' Htakes. rewrite QPen_setWidth_width.
      assert (n' = n) by congruence. subst n'.
      apply QPen_takes_spec in Htakes. now rewrite Htakes.
    + intros n' Hn'. congruence.
  - exact Hinv.
  - exact Hinv.
Qed.

Lemma run_pen_width_in_sync
  (as_int : float -> option Z)
  (draw_icon : BaseSymbolIcon -> QPainter -> QPainter)
  (ops : list IconOp) :
  pen_width_in_sync as_int (run as_int draw_icon ops).
Proof.
  change (run as_int draw_icon ops)
    with (run_from as_int draw_icon Icon.init ops).
  apply run_from_invariant.
  - intros op self. apply exec_pen_width_in_sync.
  - left. split; reflexivity.
Qed.





Lemma QPen_takes_fits (n : Z) : QPen_takes n -> fits_c_int n = true.
Proof.
  unfold QPen_takes, QPen_max_width, fits_c_int. intros H.
  apply andb_true_iff. split; apply Z.leb_le; lia.
Qed.

(** X12. On a binding that converts with [int()], the pen and the
    property agree on the whole numbers Qt takes: in every state the widget
    reaches, a stored width that is a whole number from 0 up to, not
    including, 2^15 is exactly the width the pen carries. *)
Theorem whole_width_is_carried_by_pen
  (draw_icon : BaseSymbolIcon -> QPainter -> QPainter)
  (ops : list IconOp) (n : Z) :
  let self := run converting_binding draw_icon ops in
  PyFloat.is_int (Icon.penWidth self) n = true ->
  QPen_takes n ->
  QPenWidth_is (pen_width (_pen self)) (Icon.penWidth self) = true.
Proof.
  intros self Hwhole Htakes.
  destruct (run_pen_width_in_sync converting_binding draw_icon ops)
    as [[Hone Hpen]|Hint]; fold self in Hone, Hpen || fold self in Hint.
  - unfold Icon.penWidth. rewrite Hpen, Hone. reflexivity.
  - unfold Icon.penWidth in *.
    assert (Hconv : converting_binding (_pen_width self) = Some n).
    { unfold PyFloat.is_int in Hwhole. apply andb_true_iff in Hwhole.
      destruct Hwhole as [_ Hk]. unfold converting_binding.
      destruct (PyFloat.to_int (_pen_width self)) as [k|];
        [|discriminate Hk].
      apply Z.eqb_eq in Hk. subst k.
      now rewrite (QPen_takes_fits n Htakes). }
    rewrite (Hint n Hconv Htakes). exact Hwhole.
Qed.

Lemma whole_width_is_carried_by_pen_witness :
  let self := run converting_binding Icon.draw_icon [SetPenWidth two] in
  QPenWidth_is (pen_width (_pen self)) (Icon.penWidth self) = true.
Proof.
  apply (whole_width_is_carried_by_pen Icon.draw_icon [SetPenWidth two] 2).
  - reflexivity.
  - unfold QPen_takes, QPen_max_width. lia.
Defined.

(** ** [PneumaticValve] and [FastShutter]: what the methods leave alone *)

(** X13. Without a channels prefix ([None] or the empty string)
    [create_channels], of either class, does nothing beyond the inherited
    method: the channel of the open/close button is not set. *)
Theorem create_channels_without_prefix_is_inherited
  (L I : Type) (base : SymbolBase L I) (self : Symbol L I) :
  Py.str_truthy (_channels_prefix (PCDSSymbolBase_create_channels self))
  = false ->
  PneumaticValve.create_channels self = PCDSSymbolBase_create_channels self
  /\ FastShutter.create_channels self = PCDSSymbolBase_create_channels self.
Proof.
  unfold PneumaticValve.create_channels, FastShutter.create_channels.
  destruct (_channels_prefix (PCDSSymbolBase_create_channels self))
    as [[|a p]|]; simpl; intros H; try discriminate H; split; reflexivity.
Qed.

Lemma create_channels_without_prefix_is_inherited_witness :
  PneumaticValve.create_channels (sample_symbol AtTop (Some ""%string))
  = count_call (sample_symbol AtTop (Some ""%string))
  /\ FastShutter.create_channels (sample_symbol AtTop None)
     = count_call (sample_symbol AtTop None).
Proof.
  split.
  - apply (create_channels_without_prefix_is_inherited Placement nat
             counting_base (sample_symbol AtTop (Some ""%string))).
    reflexivity.
  - apply (create_channels_without_prefix_is_inherited Placement nat
             counting_base (sample_symbol AtTop None)).
    reflexivity.
Defined.

(** X14. In [PneumaticValve], layout, channels and interlock do not
    interfere.  Beyond what the inherited method did, [assemble_layout]
    changes only the
    orientation and minimum size of the open/close button (its channel
    stays), [create_channels] and [destroy_channels] change only its
    channel, and [interlock_value_changed] changes only the controls
    frame. *)
Theorem valve_methods_leave_the_rest
  (L I : Type) (locations : ContentLocationEnum L) (base : SymbolBase L I)
  (value : Z) (self : Symbol L I) :
  (let s := PCDSSymbolBase_assemble_layout self in
   let r := PneumaticValve.assemble_layout self in
   channel (open_close_btn r) = channel (open_close_btn s)
   /\ set_open_close_btn (open_close_btn s) r = s)
  /\ (let s := PCDSSymbolBase_create_channels self in
      let r := PneumaticValve.create_channels self in
      orientation (open_close_btn r) = orientation (open_close_btn s)
      /\ minimumSize (open_close_btn r) = minimumSize (open_close_btn s)
      /\ set_open_close_btn (open_close_btn s) r = s)
  /\ (let s := PCDSSymbolBase_destroy_channels self in
      let r := PneumaticValve.destroy_channels self in
      orientation (open_close_btn r) = orientation (open_close_btn s)
      /\ minimumSize (open_close_btn r) = minimumSize (open_close_btn s)
      /\ set_open_close_btn (open_close_btn s) r = s)
  /\ (let s := InterlockMixin_interlock_value_changed value self in
      let r := PneumaticValve.interlock_value_changed value self in
      set_controls_frame (controls_frame s) r = s).
Proof.
  split; [|split; [|split]].
  - unfold PneumaticValve.assemble_layout.
    destruct (PCDSSymbolBase_assemble_layout self) as [il loc pre fr btn inh].
    destruct (Py.contains _ _ _); split; reflexivity.
  - unfold PneumaticValve.create_channels.
    destruct (PCDSSymbolBase_create_channels self) as [il loc pre fr btn inh].
    destruct pre as [[|a p]|];
      cbn [_channels_prefix Py.str_truthy open_close_btn set_open_close_btn];
      try (repeat split; reflexivity).
    destruct (set_channel_keeps_layout
                (Some (Py.format2 (String a p) ":OPN_SW")) btn) as [Ho Hm].
    split; [exact Ho|split; [exact Hm|reflexivity]].
  - unfold PneumaticValve.destroy_channels.
    destruct (PCDSSymbolBase_destroy_channels self) as [il loc pre fr btn inh].
    cbn [open_close_btn set_open_close_btn].
    destruct (set_channel_keeps_layout None btn) as [Ho Hm].
    split; [exact Ho|split; [exact Hm|reflexivity]].
  - unfold PneumaticValve.interlock_value_changed.
    destruct (InterlockMixin_interlock_value_changed value self)
      as [il loc pre fr btn inh].
    reflexivity.
Qed.

(** X15. [FastShutter] repeats [PneumaticValve] method for method: the
    location getter and setter, the size hint, the layout, the creation
    and destruction of channels and the interlock callback of the two
    classes are the same functions. *)
Theorem FastShutter_methods_are_PneumaticValve_methods
  (L I : Type) (locations : ContentLocationEnum L) (base : SymbolBase L I)
  (location : L) (value : Z) (self : Symbol L I) :
  FastShutter.controlsLocation self = PneumaticValve.controlsLocation self
  /\ FastShutter.controlsLocation_setter location self
     = PneumaticValve.controlsLocation_setter location self
  /\ FastShutter.sizeHint self = PneumaticValve.sizeHint self
  /\ FastShutter.assemble_layout self = PneumaticValve.assemble_layout self
  /\ FastShutter.create_channels self = PneumaticValve.create_channels self
  /\ FastShutter.destroy_channels self = PneumaticValve.destroy_channels self
  /\ FastShutter.interlock_value_changed value self
     = PneumaticValve.interlock_value_changed value self.
Proof. repeat split; reflexivity. Qed.

(** X16. Assigning [controlsLocation] the location it holds does nothing,
    not even a call of the inherited layout.  When the inherited
    [assemble_layout] keeps the location, assigning any location and
    reading it gives that location, and a changed location re-lays the
    button: horizontal with minimum size (100, 40) for [Top] and [Bottom],
    vertical with (100, 80) otherwise. *)
Theorem controlsLocation_setter_relays
  (L I : Type) (locations : ContentLocationEnum L) (base : SymbolBase L I)
  (location : L) (self : Symbol L I) :
  PneumaticValve.controlsLocation_setter
    (PneumaticValve.controlsLocation self) self = self
  /\ ((forall s : Symbol L I,
         _controls_location (PCDSSymbolBase_assemble_layout s)
         = _controls_location s) ->
      let r := PneumaticValve.controlsLocation_setter location self in
      PneumaticValve.controlsLocation r = location
      /\ (location <> PneumaticValve.controlsLocation self ->
          open_close_btn r
          = if Py.contains location_eq_dec location [Top; Bottom]
            then mkButton Qt.Horizontal (100, 40) (channel (open_close_btn r))
            else mkButton Qt.Vertical (100, 80) (channel (open_close_btn r)))).
Proof.
  unfold PneumaticValve.controlsLocation_setter,
    PneumaticValve.controlsLocation.
  split.
  - destruct (location_eq_dec (_controls_location self)
                (_controls_location self)) as [_|Hne];
      [reflexivity|now contradiction Hne].
  - intros Hkeep.
    destruct (location_eq_dec location (_controls_location self))
      as [Heq|Hne].
    + split; [now symmetry|]. intros Hdiff. now contradiction Hdiff.
    + unfold PneumaticValve.assemble_layout,
        PneumaticValve.controlsLocation.
      pose proof (Hkeep (set_controls_location location self)) as Hloc.
      simpl in Hloc.
      destruct (PCDSSymbolBase_assemble_layout
                  (set_controls_location location self))
        as [il loc pre fr btn inh].
      simpl in Hloc. subst loc. cbn [_controls_location].
      destruct (Py.contains location_eq_dec location [Top; Bottom]);
        split; reflexivity.
Qed.

Lemma controlsLocation_setter_relays_witness :
  let r :=
    PneumaticValve.controlsLocation_setter AtBottom (sample_symbol AtLeft None)
  in
  PneumaticValve.controlsLocation r = AtBottom
  /\ open_close_btn r = mkButton Qt.Horizontal (100, 40) None.
Proof.
  destruct (controlsLocation_setter_relays Placement nat Placement_enum
              counting_base AtBottom (sample_symbol AtLeft None))
    as (_ & H).
  destruct (H (fun s => eq_refl)) as (Hget & Hbtn).
  split.
  - exact Hget.
  - apply Hbtn. discriminate.
Defined.
